(** * RIP simple network: the scenario driver of [rip-simple-network.cc]

    The repository consists of one ns-3 driver program.  Its [main] builds a
    six-node topology (SRC, A, B, C, D, DST) over seven CSMA networks,
    configures RIP on the four routers, installs static default routes on the
    two hosts, starts a ping application, and schedules link failures and
    recoveries through the two handlers [TearDownLink] and [RecoverLink].

    The development below embeds the driver as a program in a state-and-error
    monad over the objects the driver creates and mutates (node list, name
    registry, channels, devices, IPv4 stacks, applications, the simulator's
    event queue, the animation object and the global pointer to it).  The
    ns-3 calls the driver makes are modelled in [Module ns3] to the extent
    the driver observes them; the protocol engine behind them (routing
    tables, timers, packets) belongs to the library and is not modelled. *)

From Stdlib Require Import ZArith String Ascii List Bool Lia.
From stdpp Require Import base option list gmap strings.

Local Open Scope string_scope.
Local Open Scope Z_scope.
Local Open Scope list_scope.

(** ** Results and the driver monad *)

(** A run either goes on with a value or aborts (NS_FATAL_ERROR, a failed
    NS_ASSERT, a null [Ptr] that is dereferenced). *)
Inductive result (A : Type) : Type :=
| Ok (a : A)
| Fatal (msg : string).
Arguments Ok {A} a.
Arguments Fatal {A} msg.

Definition is_Ok {A} (r : result A) : bool :=
  match r with Ok _ => true | Fatal _ => false end.

(** ** Values of the ns-3 core *)

Module ns3.

(** [ns3::Time], in nanoseconds (the default resolution). *)
Definition Time : Type := Z.
Definition Seconds (s : Z) : Time := s * 1000000000.
Definition MilliSeconds (ms : Z) : Time := ms * 1000000.

(** [Ptr<Node>]: the node's id, its position in the [NodeList]. *)
Definition Node : Type := nat.
Bind Scope nat_scope with Node.

(** IPv4 addresses and masks are 32-bit words in host order. *)
Definition Ipv4Address_t : Type := Z.

Definition digit_of (ch : ascii) : Z := Z.of_N (N_of_ascii ch) - 48.

(** Reading of a dotted-quad literal: decimal digits accumulate into a byte
    (uint8_t), a dot shifts the byte into the 32-bit host word. *)
Fixpoint AsciiToIpv4Host (address : string) (host byte : Z) : Z :=
  match address with
  | EmptyString => Z.lor (Z.shiftl host 8 mod 2 ^ 32) byte
  | String ch ptr =>
      if Ascii.eqb ch "."
      then AsciiToIpv4Host ptr (Z.lor (Z.shiftl host 8 mod 2 ^ 32) byte) 0
      else AsciiToIpv4Host ptr host ((byte * 10 + digit_of ch) mod 256)
  end.

Definition Ipv4Address (address : string) : Ipv4Address_t :=
  AsciiToIpv4Host address 0 0.
Definition Ipv4Mask (mask : string) : Ipv4Address_t :=
  AsciiToIpv4Host mask 0 0.

(** [Ipv4Address::CombineMask]. *)
Definition CombineMask (addr mask : Ipv4Address_t) : Ipv4Address_t :=
  Z.land addr mask.

(** Enumeration constants the driver passes in an [EnumValue]. *)
Inductive EnumConst : Type :=
| RipNg_NO_SPLIT_HORIZON
| RipNg_SPLIT_HORIZON
| RipNg_POISON_REVERSE
| Ping_VerboseMode_VERBOSE.

Inductive AttributeValue : Type :=
| EnumValue (e : EnumConst)
| TimeValue (t : Time)
| UintegerValue (n : Z)
| DataRateValue (bps : Z)
| AddressValue (a : Ipv4Address_t).

#[global] Instance EnumConst_eq_dec : EqDecision EnumConst.
Proof. solve_decision. Defined.
#[global] Instance AttributeValue_eq_dec : EqDecision AttributeValue.
Proof. solve_decision. Defined.

(** Log levels named by the driver ([LOG_PREFIX_TIME | LOG_PREFIX_NODE] is
    kept as the pair of prefixes it denotes). *)
Inductive LogLevel : Type :=
| LOG_LEVEL_INFO
| LOG_LEVEL_ALL
| LOG_PREFIX (time node : bool).

Inductive LogEnable : Type :=
| LogEnableAll (level : LogLevel)
| LogEnableComponent (name : string) (level : LogLevel).

End ns3.
Export ns3.

(** ** The objects the driver creates *)

(** [Ipv4InterfaceAddress]: a local address and its mask. *)
Record Ipv4InterfaceAddress : Type := {
  m_local : Ipv4Address_t;
  m_mask : Ipv4Address_t;
}.

(** [Ipv4Interface]: interface 0 of every stack is the loopback and has no
    net device of a channel ([m_device = None]). *)
Record Ipv4Interface : Type := {
  m_device : option nat;
  m_addresses : list Ipv4InterfaceAddress;
  m_ifup : bool;
  m_metric : Z;
}.

(** [Ipv4RoutingTableEntry] of the static routing protocol. *)
Record Ipv4RoutingTableEntry : Type := {
  m_dest : Ipv4Address_t;
  m_destNetworkMask : Ipv4Address_t;
  m_gateway : Ipv4Address_t;
  m_interface : nat;
}.

(** The configuration of a [Rip] instance that the driver sets through
    [RipHelper]: the excluded interfaces and the interface metrics. *)
Record Rip : Type := {
  m_interfaceExclusions : gset nat;
  m_interfaceMetrics : gmap nat Z;
}.

Inductive Ipv4RoutingProtocol : Type :=
| RipProtocol (rip : Rip)
| Ipv4StaticRouting (routes : list Ipv4RoutingTableEntry)
| Ipv4GlobalRouting.

(** [Ipv4L3Protocol] with an [Ipv4ListRouting] as routing protocol: the
    interfaces by index and the routing protocols by priority. *)
Record Ipv4L3Protocol : Type := {
  m_interfaces : list Ipv4Interface;
  m_routingProtocols : list (Ipv4RoutingProtocol * Z);
}.

(** An installed application: its type id, its attributes and the start and
    stop times set on it. *)
Record Application : Type := {
  app_tid : string;
  app_attributes : gmap string AttributeValue;
  m_startTime : Time;
  m_stopTime : Time;
}.

(** A [Node] object with what is aggregated to it.  Positions are the
    (integral) coordinates of its constant-position mobility model. *)
Record NodeObject : Type := {
  n_devices : list nat;
  n_ipv4 : option Ipv4L3Protocol;
  n_applications : list Application;
  n_position : option (Z * Z);
}.

(** A [CsmaChannel] with the attributes of the channel factory at the time
    it was created, and a [CsmaNetDevice] attached to it. *)
Record CsmaChannel : Type := {
  ch_attributes : gmap string AttributeValue;
}.

Record CsmaNetDevice : Type := {
  dev_node : Node;
  dev_channel : nat;
}.

(** The [AnimationInterface]: output file, node colours and descriptions. *)
Record AnimationInterface : Type := {
  anim_fileName : string;
  m_nodeColors : gmap Node (Z * Z * Z);
  m_nodeDescriptions : gmap Node string;
}.

(** Callbacks the driver hands to [Simulator::Schedule]. *)
Inductive Callback : Type :=
| CbTearDownLink (nodeA nodeB : Node) (interfaceA interfaceB : nat)
| CbRecoverLink (nodeA nodeB : Node) (interfaceA interfaceB : nat)
| CbPrintRoutingTable (node : Node)
| CbStop.

#[global] Instance Callback_eq_dec : EqDecision Callback.
Proof. solve_decision. Defined.

(** An event of the queue: time stamp, uid (order of insertion), callback. *)
Record Event : Type := {
  ev_ts : Time;
  ev_uid : nat;
  ev_cb : Callback;
}.

Record Simulator : Type := {
  sim_now : Time;
  sim_events : list Event;
  sim_uid : nat;
  sim_stop : bool;
}.

Inductive TraceRequest : Type :=
| EnableAsciiAll (fileName : string)
| EnablePcapAll (prefix : string) (promiscuous : bool).

(** What reaches [std::cout]: the routing table of [node] printed at a
    virtual time (the table's content is the protocol engine's). *)
Record Output : Type := {
  out_time : Time;
  out_node : Node;
}.

(** ** The program state *)

(** [g_anim] is the global pointer of the source; it points into the store
    [w_anims] of animation objects (the object itself is a local of [main]). *)
Record World : Type := {
  w_nodes : list NodeObject;
  w_names : list (string * Node);
  w_config : gmap string AttributeValue;
  w_log : list LogEnable;
  w_channels : list CsmaChannel;
  w_devices : list CsmaNetDevice;
  w_traces : list TraceRequest;
  w_anims : gmap nat AnimationInterface;
  g_anim : option nat;
  w_sim : Simulator;
  w_cout : list Output;
}.

Definition World_init : World := {|
  w_nodes := [];
  w_names := [];
  w_config := ∅;
  w_log := [];
  w_channels := [];
  w_devices := [];
  w_traces := [];
  w_anims := ∅;
  g_anim := None;
  w_sim := {| sim_now := 0; sim_events := []; sim_uid := 0; sim_stop := false |};
  w_cout := [];
|}.

Definition M (A : Type) : Type := World -> result (A * World).

#[global] Instance M_ret : MRet M := fun A a w => Ok (a, w).
#[global] Instance M_bind : MBind M := fun A B f m w =>
  match m w with
  | Ok (a, w') => f a w'
  | Fatal msg => Fatal msg
  end.

Definition fatal {A} (msg : string) : M A := fun _ => Fatal msg.
Definition get_world : M World := fun w => Ok (w, w).
Definition modify (f : World -> World) : M unit := fun w => Ok (tt, f w).

Definition set_nodes (f : list NodeObject -> list NodeObject) (w : World) : World :=
  {| w_nodes := f (w_nodes w); w_names := w_names w; w_config := w_config w;
     w_log := w_log w; w_channels := w_channels w; w_devices := w_devices w;
     w_traces := w_traces w; w_anims := w_anims w; g_anim := g_anim w;
     w_sim := w_sim w; w_cout := w_cout w |}.

Definition set_names (f : list (string * Node) -> list (string * Node)) (w : World) : World :=
  {| w_nodes := w_nodes w; w_names := f (w_names w); w_config := w_config w;
     w_log := w_log w; w_channels := w_channels w; w_devices := w_devices w;
     w_traces := w_traces w; w_anims := w_anims w; g_anim := g_anim w;
     w_sim := w_sim w; w_cout := w_cout w |}.

Definition set_config (f : gmap string AttributeValue -> gmap string AttributeValue)
    (w : World) : World :=
  {| w_nodes := w_nodes w; w_names := w_names w; w_config := f (w_config w);
     w_log := w_log w; w_channels := w_channels w; w_devices := w_devices w;
     w_traces := w_traces w; w_anims := w_anims w; g_anim := g_anim w;
     w_sim := w_sim w; w_cout := w_cout w |}.

Definition set_log (f : list LogEnable -> list LogEnable) (w : World) : World :=
  {| w_nodes := w_nodes w; w_names := w_names w; w_config := w_config w;
     w_log := f (w_log w); w_channels := w_channels w; w_devices := w_devices w;
     w_traces := w_traces w; w_anims := w_anims w; g_anim := g_anim w;
     w_sim := w_sim w; w_cout := w_cout w |}.

Definition set_channels (f : list CsmaChannel -> list CsmaChannel) (w : World) : World :=
  {| w_nodes := w_nodes w; w_names := w_names w; w_config := w_config w;
     w_log := w_log w; w_channels := f (w_channels w); w_devices := w_devices w;
     w_traces := w_traces w; w_anims := w_anims w; g_anim := g_anim w;
     w_sim := w_sim w; w_cout := w_cout w |}.

Definition set_devices (f : list CsmaNetDevice -> list CsmaNetDevice) (w : World) : World :=
  {| w_nodes := w_nodes w; w_names := w_names w; w_config := w_config w;
     w_log := w_log w; w_channels := w_channels w; w_devices := f (w_devices w);
     w_traces := w_traces w; w_anims := w_anims w; g_anim := g_anim w;
     w_sim := w_sim w; w_cout := w_cout w |}.

Definition set_traces (f : list TraceRequest -> list TraceRequest) (w : World) : World :=
  {| w_nodes := w_nodes w; w_names := w_names w; w_config := w_config w;
     w_log := w_log w; w_channels := w_channels w; w_devices := w_devices w;
     w_traces := f (w_traces w); w_anims := w_anims w; g_anim := g_anim w;
     w_sim := w_sim w; w_cout := w_cout w |}.

Definition set_anims (f : gmap nat AnimationInterface -> gmap nat AnimationInterface)
    (w : World) : World :=
  {| w_nodes := w_nodes w; w_names := w_names w; w_config := w_config w;
     w_log := w_log w; w_channels := w_channels w; w_devices := w_devices w;
     w_traces := w_traces w; w_anims := f (w_anims w); g_anim := g_anim w;
     w_sim := w_sim w; w_cout := w_cout w |}.

Definition set_g_anim (p : option nat) (w : World) : World :=
  {| w_nodes := w_nodes w; w_names := w_names w; w_config := w_config w;
     w_log := w_log w; w_channels := w_channels w; w_devices := w_devices w;
     w_traces := w_traces w; w_anims := w_anims w; g_anim := p;
     w_sim := w_sim w; w_cout := w_cout w |}.

Definition set_sim (f : Simulator -> Simulator) (w : World) : World :=
  {| w_nodes := w_nodes w; w_names := w_names w; w_config := w_config w;
     w_log := w_log w; w_channels := w_channels w; w_devices := w_devices w;
     w_traces := w_traces w; w_anims := w_anims w; g_anim := g_anim w;
     w_sim := f (w_sim w); w_cout := w_cout w |}.

Definition set_cout (f : list Output -> list Output) (w : World) : World :=
  {| w_nodes := w_nodes w; w_names := w_names w; w_config := w_config w;
     w_log := w_log w; w_channels := w_channels w; w_devices := w_devices w;
     w_traces := w_traces w; w_anims := w_anims w; g_anim := g_anim w;
     w_sim := w_sim w; w_cout := f (w_cout w) |}.

(** ** The ns-3 calls of the driver: core, names, configuration *)

Definition LogComponentEnableAll (level : LogLevel) : M unit :=
  modify (set_log (λ l, l ++ [LogEnableAll level])).

Definition LogComponentEnable (name : string) (level : LogLevel) : M unit :=
  modify (set_log (λ l, l ++ [LogEnableComponent name level])).

Definition Config_SetDefault (name : string) (value : AttributeValue) : M unit :=
  modify (set_config (<[name := value]>)).

Definition NodeObject_new : NodeObject :=
  {| n_devices := []; n_ipv4 := None; n_applications := []; n_position := None |}.

(** [CreateObject<Node> ()]: the new node gets the next id of the node list. *)
Definition CreateObject_Node : M Node :=
  w ← get_world;
  modify (set_nodes (λ l, l ++ [NodeObject_new]));;
  mret (length (w_nodes w)).

Definition Names_Find (w : World) (name : string) : option Node :=
  (λ r, r.2.2) <$> list_find (λ p, p.1 = name) (w_names w).

Definition Names_FindName (w : World) (node : Node) : option string :=
  (λ r, r.2.1) <$> list_find (λ p, p.2 = node) (w_names w).

(** [Names::Add] aborts on a name that is already taken. *)
Definition Names_Add (name : string) (node : Node) : M unit :=
  w ← get_world;
  match Names_Find w name with
  | Some _ => fatal "Names::Add(): Error adding name"
  | None => modify (set_names (λ l, l ++ [(name, node)]))
  end.

(** Update of the object behind a [Ptr<Node>]. *)
Definition update_node (node : Node) (f : NodeObject -> NodeObject) : M unit :=
  w ← get_world;
  match w_nodes w !! node with
  | Some o => modify (set_nodes (<[node := f o]>))
  | None => fatal "null Ptr<Node>"
  end.

Definition set_n_devices (f : list nat -> list nat) (o : NodeObject) : NodeObject :=
  {| n_devices := f (n_devices o); n_ipv4 := n_ipv4 o;
     n_applications := n_applications o; n_position := n_position o |}.

Definition set_n_ipv4 (v : option Ipv4L3Protocol) (o : NodeObject) : NodeObject :=
  {| n_devices := n_devices o; n_ipv4 := v;
     n_applications := n_applications o; n_position := n_position o |}.

Definition set_n_applications (f : list Application -> list Application)
    (o : NodeObject) : NodeObject :=
  {| n_devices := n_devices o; n_ipv4 := n_ipv4 o;
     n_applications := f (n_applications o); n_position := n_position o |}.

Definition set_n_position (p : option (Z * Z)) (o : NodeObject) : NodeObject :=
  {| n_devices := n_devices o; n_ipv4 := n_ipv4 o;
     n_applications := n_applications o; n_position := p |}.

(** ** Containers and the CSMA helper *)

Definition NodeContainer : Type := list Node.
Definition NetDeviceContainer : Type := list nat.
Definition Ipv4InterfaceContainer : Type := list (Node * nat).
Definition ApplicationContainer : Type := list (Node * nat).

Record CsmaHelper : Type := {
  m_channelFactory : gmap string AttributeValue;
}.

Definition CsmaHelper_new : CsmaHelper := {| m_channelFactory := ∅ |}.

Definition SetChannelAttribute (n1 : string) (v1 : AttributeValue)
    (csma : CsmaHelper) : CsmaHelper :=
  {| m_channelFactory := <[n1 := v1]> (m_channelFactory csma) |}.

(** One device of [node] on [channel]; the device joins the node's devices. *)
Definition CsmaHelper_InstallPriv (channel : nat) (node : Node) : M nat :=
  w ← get_world;
  let device := length (w_devices w) in
  update_node node (set_n_devices (λ l, l ++ [device]));;
  modify (set_devices (λ l, l ++ [{| dev_node := node; dev_channel := channel |}]));;
  mret device.

(** [CsmaHelper::Install (const NodeContainer&)]: a new channel with the
    factory's attributes, and one device per node, in container order. *)
Definition CsmaHelper_Install (csma : CsmaHelper) (c : NodeContainer)
    : M NetDeviceContainer :=
  w ← get_world;
  let channel := length (w_channels w) in
  modify (set_channels (λ l, l ++ [{| ch_attributes := m_channelFactory csma |}]));;
  mapM (CsmaHelper_InstallPriv channel) c.

Definition CsmaHelper_EnableAsciiAll (fileName : string) : M unit :=
  modify (set_traces (λ l, l ++ [EnableAsciiAll fileName])).

Definition CsmaHelper_EnablePcapAll (prefix : string) (promiscuous : bool) : M unit :=
  modify (set_traces (λ l, l ++ [EnablePcapAll prefix promiscuous])).

(** ** RIP helper and the RIP instance it creates *)

Record RipHelper : Type := {
  h_interfaceExclusions : gmap Node (gset nat);
  h_interfaceMetrics : gmap Node (gmap nat Z);
}.

Definition RipHelper_new : RipHelper :=
  {| h_interfaceExclusions := ∅; h_interfaceMetrics := ∅ |}.

Definition ExcludeInterface (node : Node) (interface : nat) (h : RipHelper) : RipHelper :=
  {| h_interfaceExclusions :=
       match h_interfaceExclusions h !! node with
       | None => <[node := {[interface]}]> (h_interfaceExclusions h)
       | Some interfaces => <[node := {[interface]} ∪ interfaces]> (h_interfaceExclusions h)
       end;
     h_interfaceMetrics := h_interfaceMetrics h |}.

(** The metric is a [uint8_t]. *)
Definition SetInterfaceMetric (node : Node) (interface : nat) (metric : Z)
    (h : RipHelper) : RipHelper :=
  {| h_interfaceExclusions := h_interfaceExclusions h;
     h_interfaceMetrics :=
       <[node := <[interface := metric mod 256]>
                   (default ∅ (h_interfaceMetrics h !! node))]> (h_interfaceMetrics h) |}.

Definition m_linkDown : Z := 16.

(** [Rip::SetInterfaceMetric]: a metric of [m_linkDown] or more is ignored. *)
Definition Rip_SetInterfaceMetric (interface : nat) (metric : Z) (rip : Rip) : Rip :=
  if metric <? m_linkDown
  then {| m_interfaceExclusions := m_interfaceExclusions rip;
          m_interfaceMetrics := <[interface := metric]> (m_interfaceMetrics rip) |}
  else rip.

(** [Rip::GetInterfaceMetric]: 1 unless a metric was set. *)
Definition Rip_GetInterfaceMetric (rip : Rip) (interface : nat) : Z :=
  default 1 (m_interfaceMetrics rip !! interface).

(** [RipHelper::Create]: the new instance takes the node's exclusions and
    metrics from the helper. *)
Definition RipHelper_Create (h : RipHelper) (node : Node) : Rip :=
  let rip :=
    {| m_interfaceExclusions := default ∅ (h_interfaceExclusions h !! node);
       m_interfaceMetrics := ∅ |} in
  match h_interfaceMetrics h !! node with
  | Some metrics =>
      foldr (λ im r, Rip_SetInterfaceMetric im.1 im.2 r) rip (map_to_list metrics)
  | None => rip
  end.

(** ** Internet stack: interfaces, routing protocols, installation *)

(** Interface indices are per node.  Installing the stack creates interface
    0, the loopback; every further interface is created by
    [Ipv4::AddInterface] when [Ipv4AddressHelper::Assign] first meets a
    device of the node, and takes the next free index.  The index the
    driver passes to [ExcludeInterface], [SetInterfaceMetric], [SetUp] and
    [SetDown] therefore counts the node's networks in the order in which
    their addresses are assigned, starting from 1. *)

Inductive Ipv4RoutingHelper : Type :=
| RipRoutingHelper (h : RipHelper)
| Ipv4StaticRoutingHelper
| Ipv4GlobalRoutingHelper.

Definition Ipv4ListRoutingHelper : Type := list (Ipv4RoutingHelper * Z).

(** [Ipv4ListRoutingHelper::Add] stores a copy of the helper. *)
Definition Ipv4ListRoutingHelper_Add (routing : Ipv4RoutingHelper) (priority : Z)
    (listRH : Ipv4ListRoutingHelper) : Ipv4ListRoutingHelper :=
  listRH ++ [(routing, priority)].

Record InternetStackHelper : Type := {
  m_routing : Ipv4ListRoutingHelper;
  m_ipv4Enabled : bool;
  m_ipv6Enabled : bool;
}.

(** The default stack routes with static routing (priority 0) and global
    routing (priority -10). *)
Definition InternetStackHelper_new : InternetStackHelper :=
  {| m_routing := [(Ipv4StaticRoutingHelper, 0); (Ipv4GlobalRoutingHelper, -10)];
     m_ipv4Enabled := true; m_ipv6Enabled := true |}.

Definition SetIpv6StackInstall (enable : bool) (h : InternetStackHelper)
    : InternetStackHelper :=
  {| m_routing := m_routing h; m_ipv4Enabled := m_ipv4Enabled h;
     m_ipv6Enabled := enable |}.

Definition SetRoutingHelper (routing : Ipv4ListRoutingHelper)
    (h : InternetStackHelper) : InternetStackHelper :=
  {| m_routing := routing; m_ipv4Enabled := m_ipv4Enabled h;
     m_ipv6Enabled := m_ipv6Enabled h |}.

Definition Ipv4RoutingHelper_Create (node : Node) (h : Ipv4RoutingHelper)
    : Ipv4RoutingProtocol :=
  match h with
  | RipRoutingHelper rh => RipProtocol (RipHelper_Create rh node)
  | Ipv4StaticRoutingHelper => Ipv4StaticRouting []
  | Ipv4GlobalRoutingHelper => Ipv4GlobalRouting
  end.

(** [Ipv4ListRouting::AddRoutingProtocol]: the list is kept by decreasing
    priority, a new entry after the entries of equal priority. *)
Fixpoint AddRoutingProtocol (p : Ipv4RoutingProtocol * Z)
    (l : list (Ipv4RoutingProtocol * Z)) : list (Ipv4RoutingProtocol * Z) :=
  match l with
  | [] => [p]
  | q :: r => if q.2 <? p.2 then p :: l else q :: AddRoutingProtocol p r
  end.

Definition Ipv4ListRoutingHelper_Create (listRH : Ipv4ListRoutingHelper) (node : Node)
    : list (Ipv4RoutingProtocol * Z) :=
  foldl (λ acc hp, AddRoutingProtocol (Ipv4RoutingHelper_Create node hp.1, hp.2) acc)
        [] listRH.

(** The network routes static routing adds for an interface that comes up. *)
Definition connected_routes (i : nat) (itf : Ipv4Interface) : list Ipv4RoutingTableEntry :=
  omap (λ a,
      if bool_decide (m_local a ≠ 0 ∧ m_mask a ≠ 0 ∧ m_mask a ≠ 4294967295)
      then Some {| m_dest := CombineMask (m_local a) (m_mask a);
                   m_destNetworkMask := m_mask a; m_gateway := 0; m_interface := i |}
      else None)
    (m_addresses itf).

(** Notification of a routing protocol that interface [i] came up or went
    down.  Static routing adds or removes the routes of the interface.  Of
    a RIP instance the state holds the configuration only (excluded
    interfaces and interface metrics), which a notification does not touch;
    the engine's routing table, sockets and timers, and the events the
    engine schedules in reaction, are the library's and are not represented
    in the state.  No property below speaks of them. *)
Definition NotifyInterfaceUp (i : nat) (itf : Ipv4Interface)
    (p : Ipv4RoutingProtocol * Z) : Ipv4RoutingProtocol * Z :=
  match p.1 with
  | Ipv4StaticRouting routes => (Ipv4StaticRouting (routes ++ connected_routes i itf), p.2)
  | _ => p
  end.

Definition NotifyInterfaceDown (i : nat) (p : Ipv4RoutingProtocol * Z)
    : Ipv4RoutingProtocol * Z :=
  match p.1 with
  | Ipv4StaticRouting routes =>
      (Ipv4StaticRouting (filter (λ r, m_interface r ≠ i) routes), p.2)
  | _ => p
  end.

Definition loopback : Ipv4Interface :=
  {| m_device := None;
     m_addresses := [{| m_local := Ipv4Address "127.0.0.1";
                        m_mask := Ipv4Mask "255.0.0.0" |}];
     m_ifup := true; m_metric := 1 |}.

(** [InternetStackHelper::Install (Ptr<Node>)]: a node that already has an
    Ipv4 object is a fatal error. *)
Definition InternetStackHelper_InstallNode (h : InternetStackHelper) (node : Node)
    : M unit :=
  w ← get_world;
  match w_nodes w !! node with
  | None => fatal "null Ptr<Node>"
  | Some o =>
      if m_ipv4Enabled h then
        match n_ipv4 o with
        | Some _ => fatal "InternetStackHelper::Install (): existing Ipv4 object"
        | None =>
            update_node node (set_n_ipv4 (Some
              {| m_interfaces := [loopback];
                 m_routingProtocols :=
                   NotifyInterfaceUp 0 loopback <$>
                     Ipv4ListRoutingHelper_Create (m_routing h) node |}))
        end
      else mret tt
  end.

Definition InternetStackHelper_Install (h : InternetStackHelper) (c : NodeContainer)
    : M unit :=
  mapM (InternetStackHelper_InstallNode h) c;; mret tt.

(** [node->GetObject<Ipv4> ()], dereferenced. *)
Definition GetObject_Ipv4 (node : Node) : M Ipv4L3Protocol :=
  w ← get_world;
  match w_nodes w !! node with
  | None => fatal "null Ptr<Node>"
  | Some o =>
      match n_ipv4 o with
      | Some ipv4 => mret ipv4
      | None => fatal "null Ptr<Ipv4>"
      end
  end.

Definition put_Ipv4 (node : Node) (ipv4 : Ipv4L3Protocol) : M unit :=
  update_node node (set_n_ipv4 (Some ipv4)).

Definition set_ifup (up : bool) (itf : Ipv4Interface) : Ipv4Interface :=
  {| m_device := m_device itf; m_addresses := m_addresses itf;
     m_ifup := up; m_metric := m_metric itf |}.

(** [Ipv4::SetUp (i)]: the interface is set up and the routing protocols are
    notified.  An index without interface is a null dereference. *)
Definition Ipv4_SetUp (node : Node) (i : nat) : M unit :=
  ipv4 ← GetObject_Ipv4 node;
  match m_interfaces ipv4 !! i with
  | None => fatal "null Ptr<Ipv4Interface>"
  | Some itf =>
      put_Ipv4 node
        {| m_interfaces := <[i := set_ifup true itf]> (m_interfaces ipv4);
           m_routingProtocols := NotifyInterfaceUp i itf <$> m_routingProtocols ipv4 |}
  end.

(** [Ipv4::SetDown (i)]. *)
Definition Ipv4_SetDown (node : Node) (i : nat) : M unit :=
  ipv4 ← GetObject_Ipv4 node;
  match m_interfaces ipv4 !! i with
  | None => fatal "null Ptr<Ipv4Interface>"
  | Some itf =>
      put_Ipv4 node
        {| m_interfaces := <[i := set_ifup false itf]> (m_interfaces ipv4);
           m_routingProtocols := NotifyInterfaceDown i <$> m_routingProtocols ipv4 |}
  end.

Definition GetInterfaceForDevice (ipv4 : Ipv4L3Protocol) (device : nat) : option nat :=
  fst <$> list_find (λ itf, m_device itf = Some device) (m_interfaces ipv4).

(** [Ipv4::AddInterface]: the new interface takes the next index; it is
    down and has no address yet. *)
Definition Ipv4_AddInterface (node : Node) (device : nat) : M nat :=
  ipv4 ← GetObject_Ipv4 node;
  put_Ipv4 node
    {| m_interfaces := m_interfaces ipv4 ++
         [{| m_device := Some device; m_addresses := []; m_ifup := false; m_metric := 1 |}];
       m_routingProtocols := m_routingProtocols ipv4 |};;
  mret (length (m_interfaces ipv4)).

Definition Ipv4_AddAddress (node : Node) (i : nat) (address : Ipv4InterfaceAddress)
    : M unit :=
  ipv4 ← GetObject_Ipv4 node;
  match m_interfaces ipv4 !! i with
  | None => fatal "null Ptr<Ipv4Interface>"
  | Some itf =>
      put_Ipv4 node
        {| m_interfaces :=
             <[i := {| m_device := m_device itf;
                       m_addresses := m_addresses itf ++ [address];
                       m_ifup := m_ifup itf; m_metric := m_metric itf |}]>
               (m_interfaces ipv4);
           m_routingProtocols :=
             if m_ifup itf
             then NotifyInterfaceUp i
                    {| m_device := m_device itf; m_addresses := [address];
                       m_ifup := true; m_metric := m_metric itf |}
                    <$> m_routingProtocols ipv4
             else m_routingProtocols ipv4 |}
  end.

Definition Ipv4_SetMetric (node : Node) (i : nat) (metric : Z) : M unit :=
  ipv4 ← GetObject_Ipv4 node;
  match m_interfaces ipv4 !! i with
  | None => fatal "null Ptr<Ipv4Interface>"
  | Some itf =>
      put_Ipv4 node
        {| m_interfaces :=
             <[i := {| m_device := m_device itf; m_addresses := m_addresses itf;
                       m_ifup := m_ifup itf; m_metric := metric |}]> (m_interfaces ipv4);
           m_routingProtocols := m_routingProtocols ipv4 |}
  end.

(** ** Address assignment *)

Record Ipv4AddressHelper : Type := {
  m_network : Ipv4Address_t;
  m_netmask : Ipv4Address_t;
  m_address : Z;
  m_max : Z;
}.

(** Number of host bits of a mask: its trailing zero bits. *)
Fixpoint NumAddressBits_from (n : nat) (i : Z) (maskbits : Z) : Z :=
  match n with
  | O => i
  | S n' => if Z.testbit maskbits i then i else NumAddressBits_from n' (i + 1) maskbits
  end.

Definition NumAddressBits (maskbits : Z) : Z := NumAddressBits_from 32 0 maskbits.

Definition Ipv4AddressHelper_new : Ipv4AddressHelper :=
  {| m_network := Ipv4Address "255.255.255.255"; m_netmask := 0;
     m_address := Ipv4Address "255.255.255.255"; m_max := 4294967295 |}.

(** [SetBase (network, mask)] with the default base 0.0.0.1. *)
Definition SetBase (network mask : Ipv4Address_t) : Ipv4AddressHelper :=
  {| m_network := network; m_netmask := mask;
     m_address := Ipv4Address "0.0.0.1";
     m_max := 2 ^ NumAddressBits mask - 2 |}.

(** [NewAddress]: the next address of the network; running out of host
    addresses aborts. *)
Definition NewAddress (h : Ipv4AddressHelper) : M (Ipv4Address_t * Ipv4AddressHelper) :=
  if m_max h <? m_address h
  then fatal "Ipv4AddressHelper::NewAddress(): Address overflow"
  else mret (Z.lor (m_network h) (m_address h),
             {| m_network := m_network h; m_netmask := m_netmask h;
                m_address := m_address h + 1; m_max := m_max h |}).

(** One step of [Ipv4AddressHelper::Assign]: the device's interface is
    looked up or added, gets the next address, metric 1, and is set up. *)
Definition Assign_device (st : Ipv4InterfaceContainer * Ipv4AddressHelper) (device : nat)
    : M (Ipv4InterfaceContainer * Ipv4AddressHelper) :=
  w ← get_world;
  match w_devices w !! device with
  | None => fatal "null Ptr<NetDevice>"
  | Some dev =>
      let node := dev_node dev in
      ipv4 ← GetObject_Ipv4 node;
      interface ← match GetInterfaceForDevice ipv4 device with
                  | Some i => mret i
                  | None => Ipv4_AddInterface node device
                  end;
      ah ← NewAddress st.2;
      Ipv4_AddAddress node interface {| m_local := ah.1; m_mask := m_netmask st.2 |};;
      Ipv4_SetMetric node interface 1;;
      Ipv4_SetUp node interface;;
      mret (st.1 ++ [(node, interface)], ah.2)
  end.

Fixpoint foldM {A B} (f : B -> A -> M B) (b : B) (l : list A) : M B :=
  match l with
  | [] => mret b
  | a :: r => b' ← f b a; foldM f b' r
  end.

Definition Ipv4AddressHelper_Assign (h : Ipv4AddressHelper) (c : NetDeviceContainer)
    : M (Ipv4InterfaceContainer * Ipv4AddressHelper) :=
  foldM Assign_device ([], h) c.

(** ** Static routing *)

Definition is_Ipv4StaticRouting (p : Ipv4RoutingProtocol) : bool :=
  match p with Ipv4StaticRouting _ => true | _ => false end.

(** [Ipv4RoutingHelper::GetRouting<Ipv4StaticRouting>] on the routing
    protocol of [node]: the position of the first static routing protocol
    in the list routing, or a null pointer. *)
Definition GetRouting_Ipv4StaticRouting (node : Node) : M (option (Node * nat)) :=
  ipv4 ← GetObject_Ipv4 node;
  mret ((λ r, (node, r.1)) <$>
        list_find (λ p, is_Ipv4StaticRouting p.1 = true) (m_routingProtocols ipv4)).

(** [Ipv4StaticRouting::SetDefaultRoute (nextHop, interface)]: a network
    route to 0.0.0.0/0 is appended. *)
Definition SetDefaultRoute (staticRouting : option (Node * nat)) (nextHop : Ipv4Address_t)
    (interface : nat) : M unit :=
  match staticRouting with
  | None => fatal "null Ptr<Ipv4StaticRouting>"
  | Some (node, k) =>
      ipv4 ← GetObject_Ipv4 node;
      match m_routingProtocols ipv4 !! k with
      | Some (Ipv4StaticRouting routes, priority) =>
          put_Ipv4 node
            {| m_interfaces := m_interfaces ipv4;
               m_routingProtocols :=
                 <[k := (Ipv4StaticRouting
                           (routes ++ [{| m_dest := Ipv4Address "0.0.0.0";
                                          m_destNetworkMask := 0;
                                          m_gateway := nextHop;
                                          m_interface := interface |}]), priority)]>
                   (m_routingProtocols ipv4) |}
      | _ => fatal "null Ptr<Ipv4StaticRouting>"
      end
  end.

(** ** The simulator's event queue *)

Definition Event_lt (e1 e2 : Event) : bool :=
  (ev_ts e1 <? ev_ts e2) || ((ev_ts e1 =? ev_ts e2) && (ev_uid e1 <? ev_uid e2)%nat).

(** The queue is ordered by time stamp, then by uid. *)
Fixpoint Scheduler_Insert (ev : Event) (l : list Event) : list Event :=
  match l with
  | [] => [ev]
  | e :: r => if Event_lt ev e then ev :: l else e :: Scheduler_Insert ev r
  end.

(** [Simulator::Schedule (delay, callback)]; a negative delay is fatal. *)
Definition Simulator_Schedule (delay : Time) (cb : Callback) : M unit :=
  if delay <? 0 then fatal "Simulator::Schedule(): negative delay"
  else
    modify (set_sim (λ s,
      {| sim_now := sim_now s;
         sim_events := Scheduler_Insert
           {| ev_ts := sim_now s + delay; ev_uid := sim_uid s; ev_cb := cb |}
           (sim_events s);
         sim_uid := S (sim_uid s);
         sim_stop := sim_stop s |})).

(** [Simulator::Stop (delay)] schedules the stop event. *)
Definition Simulator_Stop (delay : Time) : M unit :=
  Simulator_Schedule delay CbStop.

(** [Simulator::Destroy]: the remaining events are dropped. *)
Definition Simulator_Destroy : M unit :=
  modify (set_sim (λ s,
    {| sim_now := sim_now s; sim_events := []; sim_uid := sim_uid s;
       sim_stop := sim_stop s |})).

Inductive OutputStreamWrapper : Type := std_cout.

(** [Ipv4RoutingHelper::PrintRoutingTableAt] schedules the print. *)
Definition PrintRoutingTableAt (printTime : Time) (node : Node)
    (stream : OutputStreamWrapper) : M unit :=
  Simulator_Schedule printTime (CbPrintRoutingTable node).

(** ** Applications *)

Record PingHelper : Type := {
  m_factory : gmap string AttributeValue;
}.

Definition PingHelper_new (remote : Ipv4Address_t) : PingHelper :=
  {| m_factory := {["Destination" := AddressValue remote]} |}.

Definition PingHelper_SetAttribute (name : string) (value : AttributeValue)
    (ping : PingHelper) : PingHelper :=
  {| m_factory := <[name := value]> (m_factory ping) |}.

(** [PingHelper::Install (Ptr<Node>)]. *)
Definition PingHelper_Install (ping : PingHelper) (node : Node) : M ApplicationContainer :=
  w ← get_world;
  match w_nodes w !! node with
  | None => fatal "null Ptr<Node>"
  | Some o =>
      update_node node (set_n_applications (λ l, l ++
        [{| app_tid := "ns3::Ping"; app_attributes := m_factory ping;
            m_startTime := 0; m_stopTime := 0 |}]));;
      mret [(node, length (n_applications o))]
  end.

Definition set_app_times (start stop : Time -> Time) (a : Application) : Application :=
  {| app_tid := app_tid a; app_attributes := app_attributes a;
     m_startTime := start (m_startTime a); m_stopTime := stop (m_stopTime a) |}.

Definition ApplicationContainer_Start (apps : ApplicationContainer) (start : Time) : M unit :=
  mapM (λ na : Node * nat,
          update_node na.1 (set_n_applications
            (alter (set_app_times (λ _, start) id) na.2))) apps;;
  mret tt.

Definition ApplicationContainer_Stop (apps : ApplicationContainer) (stop : Time) : M unit :=
  mapM (λ na : Node * nat,
          update_node na.1 (set_n_applications
            (alter (set_app_times id (λ _, stop)) na.2))) apps;;
  mret tt.

(** ** Animation *)

(** The colour an animation gives a node when it starts. *)
Definition default_colour : Z * Z * Z := (255, 0, 0).

(** Construction of an [AnimationInterface]; the result is its address.
    The constructor starts the animation, which writes every node of the
    node list with the default colour. *)
Definition AnimationInterface_new (fileName : string) : M nat :=
  w ← get_world;
  let anim := fresh (dom (w_anims w)) in
  modify (set_anims (<[anim :=
    {| anim_fileName := fileName;
       m_nodeColors :=
         list_to_map ((λ n, (n, default_colour)) <$> seq 0 (length (w_nodes w)));
       m_nodeDescriptions := ∅ |}]>));;
  mret anim.

Definition update_anim (anim : nat) (f : AnimationInterface -> AnimationInterface) : M unit :=
  w ← get_world;
  match w_anims w !! anim with
  | Some o => modify (set_anims (<[anim := f o]>))
  | None => fatal "dangling AnimationInterface*"
  end.

Definition SetConstantPosition (anim : nat) (n : Node) (x y : Z) : M unit :=
  update_anim anim id;;
  update_node n (set_n_position (Some (x, y))).

Definition UpdateNodeDescription (anim : nat) (n : Node) (descr : string) : M unit :=
  update_anim anim (λ o,
    {| anim_fileName := anim_fileName o; m_nodeColors := m_nodeColors o;
       m_nodeDescriptions := <[n := descr]> (m_nodeDescriptions o) |}).

(** The colour components are [uint8_t]. *)
Definition UpdateNodeColor (anim : nat) (n : Node) (r g b : Z) : M unit :=
  update_anim anim (λ o,
    {| anim_fileName := anim_fileName o;
       m_nodeColors := <[n := (r mod 256, g mod 256, b mod 256)]> (m_nodeColors o);
       m_nodeDescriptions := m_nodeDescriptions o |}).

(** ** The driver: [rip-simple-network.cc] *)

(** [TearDownLink]: both interfaces are set down; when the global animation
    pointer is set, both nodes are coloured red and described as down. *)
Definition TearDownLink (nodeA nodeB : Node) (interfaceA interfaceB : nat) : M unit :=
  Ipv4_SetDown nodeA interfaceA;;
  Ipv4_SetDown nodeB interfaceB;;
  w ← get_world;
  match g_anim w with
  | Some anim =>
      let description := "Link Down" in
      UpdateNodeColor anim nodeA 255 0 0;;
      UpdateNodeColor anim nodeB 255 0 0;;
      UpdateNodeDescription anim nodeA description;;
      UpdateNodeDescription anim nodeB description
  | None => mret tt
  end.

(** [RecoverLink]: both interfaces are set up; when the global animation
    pointer is set, both nodes are coloured green and described as up. *)
Definition RecoverLink (nodeA nodeB : Node) (interfaceA interfaceB : nat) : M unit :=
  Ipv4_SetUp nodeA interfaceA;;
  Ipv4_SetUp nodeB interfaceB;;
  w ← get_world;
  match g_anim w with
  | Some anim =>
      let description := "Link Up" in
      UpdateNodeColor anim nodeA 0 255 0;;
      UpdateNodeColor anim nodeB 0 255 0;;
      UpdateNodeDescription anim nodeA description;;
      UpdateNodeDescription anim nodeB description
  | None => mret tt
  end.

(** Dispatch of a scheduled callback.  A routing table is printed for a node
    that has an Ipv4 object; the stop event raises the stop flag. *)
Definition Invoke (cb : Callback) : M unit :=
  match cb with
  | CbTearDownLink nodeA nodeB interfaceA interfaceB =>
      TearDownLink nodeA nodeB interfaceA interfaceB
  | CbRecoverLink nodeA nodeB interfaceA interfaceB =>
      RecoverLink nodeA nodeB interfaceA interfaceB
  | CbPrintRoutingTable node =>
      w ← get_world;
      match w_nodes w !! node with
      | Some {| n_ipv4 := Some _ |} =>
          modify (set_cout (λ l, l ++
            [{| out_time := sim_now (w_sim w); out_node := node |}]))
      | _ => mret tt
      end
  | CbStop =>
      modify (set_sim (λ s,
        {| sim_now := sim_now s; sim_events := sim_events s; sim_uid := sim_uid s;
           sim_stop := true |}))
  end.

(** The event loop: while the queue is not empty and the stop flag is down,
    the first event is removed, the clock moves to its time stamp, and its
    callback runs. *)
Fixpoint ProcessEvents (fuel : nat) : M unit :=
  match fuel with
  | O => fatal "event loop: out of fuel"
  | S fuel' =>
      w ← get_world;
      if sim_stop (w_sim w) then mret tt
      else
        match sim_events (w_sim w) with
        | [] => mret tt
        | next :: rest =>
            modify (set_sim (λ s,
              {| sim_now := ev_ts next; sim_events := rest; sim_uid := sim_uid s;
                 sim_stop := sim_stop s |}));;
            Invoke (ev_cb next);;
            ProcessEvents fuel'
        end
  end.

(** [Simulator::Run].  The queue holds the events the driver schedules;
    the events of the protocol engine are not represented.  The callbacks
    of the driver schedule nothing themselves, so one more step than there
    are events empties the queue. *)
Definition Simulator_Run : M unit :=
  modify (set_sim (λ s,
    {| sim_now := sim_now s; sim_events := sim_events s; sim_uid := sim_uid s;
       sim_stop := false |}));;
  w ← get_world;
  ProcessEvents (S (length (sim_events (w_sim w)))).

(** The command line as [cmd.Parse (argc, argv)] reads it: for each value
    registered with [cmd.AddValue], the value given for it, if any. *)
Record CommandLine : Type := {
  arg_verbose : option bool;
  arg_printRoutingTables : option bool;
  arg_showPings : option bool;
  arg_splitHorizonStrategy : option string;
}.

(** A registered variable keeps its value unless the command line sets it. *)
Definition cmd_Parse {A} (given : option A) (var : A) : A := default var given.

Definition no_flags : CommandLine :=
  {| arg_verbose := None; arg_printRoutingTables := None; arg_showPings := None;
     arg_splitHorizonStrategy := None |}.

(** [main] up to and including [Simulator::Stop]: the construction of the
    scenario. *)
Definition main_setup (argv : CommandLine) : M unit :=
  let verbose := false in
  let printRoutingTables := false in
  let showPings := false in
  let SplitHorizon := "NoSplitHorizon" in
  (* cmd.AddValue (...); cmd.Parse (argc, argv); *)
  let verbose := cmd_Parse (arg_verbose argv) verbose in
  let printRoutingTables := cmd_Parse (arg_printRoutingTables argv) printRoutingTables in
  let showPings := cmd_Parse (arg_showPings argv) showPings in
  let SplitHorizon := cmd_Parse (arg_splitHorizonStrategy argv) SplitHorizon in
  (if verbose then
     LogComponentEnableAll (LOG_PREFIX true true);;
     LogComponentEnable "RipSimpleRouting" LOG_LEVEL_INFO;;
     LogComponentEnable "Rip" LOG_LEVEL_ALL;;
     LogComponentEnable "Ipv4Interface" LOG_LEVEL_ALL;;
     LogComponentEnable "Icmpv4L4Protocol" LOG_LEVEL_ALL;;
     LogComponentEnable "Ipv4L3Protocol" LOG_LEVEL_ALL;;
     LogComponentEnable "ArpCache" LOG_LEVEL_ALL;;
     LogComponentEnable "Ping" LOG_LEVEL_ALL
   else mret tt);;
  (* Configure split horizon strategy *)
  (if String.eqb SplitHorizon "NoSplitHorizon" then
     Config_SetDefault "ns3::RipNg::SplitHorizon" (EnumValue RipNg_NO_SPLIT_HORIZON)
   else if String.eqb SplitHorizon "SplitHorizon" then
     Config_SetDefault "ns3::RipNg::SplitHorizon" (EnumValue RipNg_SPLIT_HORIZON)
   else
     Config_SetDefault "ns3::RipNg::SplitHorizon" (EnumValue RipNg_POISON_REVERSE));;
  (* Create nodes *)
  src ← CreateObject_Node;
  Names_Add "SrcNode" src;;
  dst ← CreateObject_Node;
  Names_Add "DstNode" dst;;
  a ← CreateObject_Node;
  Names_Add "RouterA" a;;
  b ← CreateObject_Node;
  Names_Add "RouterB" b;;
  c ← CreateObject_Node;
  Names_Add "RouterC" c;;
  d ← CreateObject_Node;
  Names_Add "RouterD" d;;
  let net1 : NodeContainer := [src; a] in
  let net2 : NodeContainer := [a; b] in
  let net3 : NodeContainer := [a; c] in
  let net4 : NodeContainer := [b; c] in
  let net5 : NodeContainer := [c; d] in
  let net6 : NodeContainer := [b; d] in
  let net7 : NodeContainer := [d; dst] in
  let routers : NodeContainer := [a; b; c; d] in
  let nodes : NodeContainer := [src; dst] in
  (* Create channels with different delays *)
  let csma := CsmaHelper_new in
  let csma := SetChannelAttribute "DataRate" (DataRateValue 5000000) csma in
  let csma := SetChannelAttribute "Delay" (TimeValue (MilliSeconds 2)) csma in
  ndc1 ← CsmaHelper_Install csma net1;
  let csma := SetChannelAttribute "Delay" (TimeValue (MilliSeconds 3)) csma in
  ndc2 ← CsmaHelper_Install csma net2;
  let csma := SetChannelAttribute "Delay" (TimeValue (MilliSeconds 4)) csma in
  ndc3 ← CsmaHelper_Install csma net3;
  let csma := SetChannelAttribute "Delay" (TimeValue (MilliSeconds 2)) csma in
  ndc4 ← CsmaHelper_Install csma net4;
  let csma := SetChannelAttribute "Delay" (TimeValue (MilliSeconds 5)) csma in
  ndc5 ← CsmaHelper_Install csma net5;
  let csma := SetChannelAttribute "Delay" (TimeValue (MilliSeconds 2)) csma in
  ndc6 ← CsmaHelper_Install csma net6;
  let csma := SetChannelAttribute "Delay" (TimeValue (MilliSeconds 2)) csma in
  ndc7 ← CsmaHelper_Install csma net7;
  (* Configure routing *)
  let ripRouting := RipHelper_new in
  (* Configure RIP interfaces *)
  let ripRouting := ExcludeInterface a 1 ripRouting in
  let ripRouting := ExcludeInterface d 3 ripRouting in
  (* Set different metrics *)
  let ripRouting := SetInterfaceMetric c 3 10 ripRouting in
  let ripRouting := SetInterfaceMetric d 1 10 ripRouting in
  let ripRouting := SetInterfaceMetric b 2 5 ripRouting in
  let ripRouting := SetInterfaceMetric c 1 5 ripRouting in
  let listRH : Ipv4ListRoutingHelper := [] in
  let listRH := Ipv4ListRoutingHelper_Add (RipRoutingHelper ripRouting) 0 listRH in
  let internet := InternetStackHelper_new in
  let internet := SetIpv6StackInstall false internet in
  let internet := SetRoutingHelper listRH internet in
  InternetStackHelper_Install internet routers;;
  let internetNodes := InternetStackHelper_new in
  let internetNodes := SetIpv6StackInstall false internetNodes in
  InternetStackHelper_Install internetNodes nodes;;
  (* Assign IP addresses *)
  let ipv4 := Ipv4AddressHelper_new in
  let ipv4 := SetBase (Ipv4Address "10.0.0.0") (Ipv4Mask "255.255.255.0") in
  '(iic1, ipv4) ← Ipv4AddressHelper_Assign ipv4 ndc1;
  let ipv4 := SetBase (Ipv4Address "10.0.1.0") (Ipv4Mask "255.255.255.0") in
  '(iic2, ipv4) ← Ipv4AddressHelper_Assign ipv4 ndc2;
  let ipv4 := SetBase (Ipv4Address "10.0.2.0") (Ipv4Mask "255.255.255.0") in
  '(iic3, ipv4) ← Ipv4AddressHelper_Assign ipv4 ndc3;
  let ipv4 := SetBase (Ipv4Address "10.0.3.0") (Ipv4Mask "255.255.255.0") in
  '(iic4, ipv4) ← Ipv4AddressHelper_Assign ipv4 ndc4;
  let ipv4 := SetBase (Ipv4Address "10.0.4.0") (Ipv4Mask "255.255.255.0") in
  '(iic5, ipv4) ← Ipv4AddressHelper_Assign ipv4 ndc5;
  let ipv4 := SetBase (Ipv4Address "10.0.5.0") (Ipv4Mask "255.255.255.0") in
  '(iic6, ipv4) ← Ipv4AddressHelper_Assign ipv4 ndc6;
  let ipv4 := SetBase (Ipv4Address "10.0.6.0") (Ipv4Mask "255.255.255.0") in
  '(iic7, ipv4) ← Ipv4AddressHelper_Assign ipv4 ndc7;
  (* Configure static routes *)
  staticRouting ← GetRouting_Ipv4StaticRouting src;
  SetDefaultRoute staticRouting (Ipv4Address "10.0.0.2") 1;;
  staticRouting ← GetRouting_Ipv4StaticRouting dst;
  SetDefaultRoute staticRouting (Ipv4Address "10.0.6.1") 1;;
  (* Print routing tables *)
  (if negb printRoutingTables then
     let routingStream := std_cout in
     PrintRoutingTableAt (Seconds 30) a routingStream;;
     PrintRoutingTableAt (Seconds 30) b routingStream;;
     PrintRoutingTableAt (Seconds 30) c routingStream;;
     PrintRoutingTableAt (Seconds 30) d routingStream;;
     PrintRoutingTableAt (Seconds 60) a routingStream;;
     PrintRoutingTableAt (Seconds 60) b routingStream;;
     PrintRoutingTableAt (Seconds 60) c routingStream;;
     PrintRoutingTableAt (Seconds 60) d routingStream;;
     PrintRoutingTableAt (Seconds 90) a routingStream;;
     PrintRoutingTableAt (Seconds 90) b routingStream;;
     PrintRoutingTableAt (Seconds 90) c routingStream;;
     PrintRoutingTableAt (Seconds 90) d routingStream
   else mret tt);;
  (* Create ping application *)
  let packetSize := 1024 in
  let interPacketInterval := Seconds 1 in
  let ping := PingHelper_new (Ipv4Address "10.0.6.2") in
  let ping := PingHelper_SetAttribute "Interval" (TimeValue interPacketInterval) ping in
  let ping := PingHelper_SetAttribute "Size" (UintegerValue packetSize) ping in
  let ping :=
    if negb showPings
    then PingHelper_SetAttribute "VerboseMode" (EnumValue Ping_VerboseMode_VERBOSE) ping
    else ping in
  apps ← PingHelper_Install ping src;
  ApplicationContainer_Start apps (Seconds 1);;
  ApplicationContainer_Stop apps (Seconds 110);;
  (* Enable traces *)
  CsmaHelper_EnableAsciiAll "rip-simple-routing.tr";;
  CsmaHelper_EnablePcapAll "rip-simple-routing" true;;
  (* Configure animation *)
  anim ← AnimationInterface_new ("rip-simple-routing-" +:+ SplitHorizon +:+ ".xml");
  modify (set_g_anim (Some anim));;
  (* Position nodes *)
  SetConstantPosition anim src 0 0;;
  SetConstantPosition anim a 2 1;;
  SetConstantPosition anim b 4 0;;
  SetConstantPosition anim c 2 (-1);;
  SetConstantPosition anim d 6 0;;
  SetConstantPosition anim dst 8 0;;
  (* Set node descriptions *)
  UpdateNodeDescription anim a ("Router A" +:+ String "010" SplitHorizon);;
  UpdateNodeDescription anim b ("Router B" +:+ String "010" SplitHorizon);;
  UpdateNodeDescription anim c ("Router C" +:+ String "010" SplitHorizon);;
  UpdateNodeDescription anim d ("Router D" +:+ String "010" SplitHorizon);;
  (* Set up link failures and recoveries *)
  Simulator_Schedule (Seconds 40) (CbTearDownLink b d 3 2);;
  Simulator_Schedule (Seconds 60) (CbTearDownLink c d 2 1);;
  (* Schedule link recoveries *)
  Simulator_Schedule (Seconds 80) (CbRecoverLink b d 3 2);;
  Simulator_Schedule (Seconds 100) (CbRecoverLink c d 2 1);;
  Simulator_Stop (Seconds 131).

(** [main]: the scenario is built, the simulation runs and is destroyed,
    the global animation pointer is cleared, and the exit code is 0. *)
Definition main (argv : CommandLine) : M Z :=
  main_setup argv;;
  Simulator_Run;;
  Simulator_Destroy;;
  modify (set_g_anim None);;
  mret 0.

(** ** Observations on a state *)

(** [Ipv4::GetInterfaceForPrefix]: the first interface with an address in
    the network [address]/[mask]. *)
Definition GetInterfaceForPrefix (ipv4 : Ipv4L3Protocol) (address mask : Ipv4Address_t)
    : option nat :=
  fst <$> list_find
    (λ itf, Exists (λ a, CombineMask (m_local a) mask = CombineMask address mask)
                   (m_addresses itf))
    (m_interfaces ipv4).

Definition Ipv4_of (w : World) (node : Node) : option Ipv4L3Protocol :=
  o ← w_nodes w !! node; n_ipv4 o.

(** [Ipv4::IsUp]. *)
Definition IsUp (w : World) (node : Node) (i : nat) : option bool :=
  ipv4 ← Ipv4_of w node; m_ifup <$> m_interfaces ipv4 !! i.

(** The first address of an interface. *)
Definition GetAddress (w : World) (node : Node) (i : nat) : option Ipv4Address_t :=
  ipv4 ← Ipv4_of w node; itf ← m_interfaces ipv4 !! i;
  m_local <$> head (m_addresses itf).

(** The interface of the node called [name] that lies in the /24 network
    [network]. *)
Definition interface_on (w : World) (name : string) (network : Ipv4Address_t)
    : option (Node * nat) :=
  node ← Names_Find w name;
  ipv4 ← Ipv4_of w node;
  i ← GetInterfaceForPrefix ipv4 network (Ipv4Mask "255.255.255.0");
  Some (node, i).

Definition Rip_of (w : World) (node : Node) : option Rip :=
  ipv4 ← Ipv4_of w node;
  head (omap (λ p, match p.1 with RipProtocol rip => Some rip | _ => None end)
             (m_routingProtocols ipv4)).

Definition StaticRouting_of (w : World) (node : Node) : option (list Ipv4RoutingTableEntry) :=
  ipv4 ← Ipv4_of w node;
  head (omap (λ p, match p.1 with Ipv4StaticRouting routes => Some routes | _ => None end)
             (m_routingProtocols ipv4)).

(** The metric RIP uses on the interface of [name] in [network]. *)
Definition metric_on (w : World) (name : string) (network : Ipv4Address_t) : option Z :=
  ni ← interface_on w name network;
  rip ← Rip_of w ni.1;
  Some (Rip_GetInterfaceMetric rip ni.2).

(** All interfaces with a device of all nodes that run RIP: name of the
    node, interface index, network of the interface, RIP interface metric. *)
Definition rip_interfaces (w : World) : list (string * nat * Ipv4Address_t * Z) :=
  mjoin (imap (λ node o,
    match Names_FindName w node, Rip_of w node, n_ipv4 o with
    | Some name, Some rip, Some ipv4 =>
        mjoin (imap (λ i itf,
          match m_device itf, head (m_addresses itf) with
          | Some _, Some a =>
              [(name, i, CombineMask (m_local a) (m_mask a), Rip_GetInterfaceMetric rip i)]
          | _, _ => []
          end) (m_interfaces ipv4))
    | _, _, _ => []
    end) (w_nodes w)).

Definition address_on (w : World) (name : string) (network : Ipv4Address_t)
    : option Ipv4Address_t :=
  ni ← interface_on w name network; GetAddress w ni.1 ni.2.

(** All interfaces (node, index) whose first address lies in the /24 network
    [network]: the endpoints of that network. *)
Definition endpoints (w : World) (network : Ipv4Address_t) : list (Node * nat) :=
  mjoin (imap (λ node o,
    match n_ipv4 o with
    | Some ipv4 =>
        mjoin (imap (λ i itf,
          match head (m_addresses itf) with
          | Some a =>
              if bool_decide (CombineMask (m_local a) (Ipv4Mask "255.255.255.0") = network)
              then [(node, i)] else []
          | None => []
          end) (m_interfaces ipv4))
    | None => []
    end) (w_nodes w)).

(** All interfaces (node, index) that are administratively down. *)
Definition down_interfaces (w : World) : list (Node * nat) :=
  mjoin (imap (λ node o,
    match n_ipv4 o with
    | Some ipv4 =>
        mjoin (imap (λ i itf, if m_ifup itf then [] else [(node, i)]) (m_interfaces ipv4))
    | None => []
    end) (w_nodes w)).

(** The RIP-excluded interfaces: name of the node, interface index, and the
    network of that interface. *)
Definition excluded_interfaces (w : World) : list (string * nat * option Ipv4Address_t) :=
  mjoin (imap (λ node o,
    match Names_FindName w node, Rip_of w node with
    | Some name, Some rip =>
        (λ i, (name, i,
               (λ a, CombineMask a (Ipv4Mask "255.255.255.0")) <$> GetAddress w node i))
          <$> elements (m_interfaceExclusions rip)
    | _, _ => []
    end) (w_nodes w)).

(** The networks: for each channel, in order of creation, the names of the
    nodes attached to it and the (network, mask) pairs of the interfaces on
    its devices. *)
Definition networks (w : World)
    : list (list (option string) * list (Ipv4Address_t * Ipv4Address_t)) :=
  imap (λ channel _,
    let devices :=
      omap (λ kd : nat * CsmaNetDevice,
              if bool_decide (dev_channel kd.2 = channel) then Some (kd.1, dev_node kd.2)
              else None)
           (imap pair (w_devices w)) in
    (Names_FindName w <$> devices.*2,
     remove_dups (mjoin ((λ kd : nat * Node,
        match Ipv4_of w kd.2 with
        | Some ipv4 =>
            mjoin ((λ itf, if bool_decide (m_device itf = Some kd.1)
                           then (λ a, (CombineMask (m_local a) (m_mask a), m_mask a))
                                  <$> m_addresses itf
                           else []) <$> m_interfaces ipv4)
        | None => []
        end) <$> devices))))
    (w_channels w).

(** The installed applications: node name, type, destination and interval
    attributes, start and stop time. *)
Definition applications (w : World)
    : list (option string * string * option AttributeValue * option AttributeValue
            * Time * Time) :=
  mjoin (imap (λ node o,
    (λ app, (Names_FindName w node, app_tid app,
             app_attributes app !! "Destination", app_attributes app !! "Interval",
             m_startTime app, m_stopTime app)) <$> n_applications o) (w_nodes w)).

(** The default routes (gateway, interface) of the static routing of the
    node called [name]; [None] when it has no static routing. *)
Definition default_routes (w : World) (name : string) : option (list (Ipv4Address_t * nat)) :=
  node ← Names_Find w name;
  (λ routes : list Ipv4RoutingTableEntry,
     (λ r, (m_gateway r, m_interface r)) <$>
       filter (λ r, m_dest r = 0 ∧ m_destNetworkMask r = 0) routes)
    <$> StaticRouting_of w node.

(** The scheduled events that are no routing-table prints. *)
Definition link_schedule (w : World) : list (Time * Callback) :=
  omap (λ e, match ev_cb e with
             | CbPrintRoutingTable _ => None
             | cb => Some (ev_ts e, cb)
             end) (sim_events (w_sim w)).

(** The scheduled routing-table prints: time and name of the node. *)
Definition print_schedule (w : World) : list (Time * option string) :=
  omap (λ e, match ev_cb e with
             | CbPrintRoutingTable node => Some (ev_ts e, Names_FindName w node)
             | _ => None
             end) (sim_events (w_sim w)).

(** The routing-table snapshots that were printed: time and name of the node. *)
Definition printed (w : World) : list (Time * option string) :=
  (λ o, (out_time o, Names_FindName w (out_node o))) <$> w_cout w.

(** The twelve snapshots: A, B, C, D at 30, 60 and 90 seconds. *)
Definition snapshots : list (Time * option string) :=
  t ← [Seconds 30; Seconds 60; Seconds 90];
  (λ name, (t, Some name)) <$> ["RouterA"; "RouterB"; "RouterC"; "RouterD"].

(** The scenario run up to virtual time [t]: an additional stop event at
    [t] ends the run after the events scheduled for [t]. *)
Definition run_until (argv : CommandLine) (t : Time) : M unit :=
  main_setup argv;;
  Simulator_Stop t;;
  Simulator_Run.

(** The state [main_setup] builds when no flag is given, and the state a
    computation leaves (the start state if it aborts). *)
Definition world_after {A} (m : M A) (w : World) : World :=
  match m w with Ok (_, w') => w' | Fatal _ => w end.

Definition scenario_world : World := world_after (main_setup no_flags) World_init.

(** ** What the link handlers change *)

Definition interface_at (w : World) (node : Node) (i : nat) : option Ipv4Interface :=
  ipv4 ← Ipv4_of w node; m_interfaces ipv4 !! i.

(** The colour and the description of a node in the animation object at
    address [anim]. *)
Definition node_colour (w : World) (anim : nat) (n : Node) : option (Z * Z * Z) :=
  o ← w_anims w !! anim; m_nodeColors o !! n.

Definition node_description (w : World) (anim : nat) (n : Node) : option string :=
  o ← w_anims w !! anim; m_nodeDescriptions o !! n.

(** [w] and [w'] agree on the names, the configuration defaults, the log
    enablings, the channels, the devices, the trace requests and the global
    pointer [g_anim] itself. *)
Definition same_configuration (w w' : World) : Prop :=
  w_names w' = w_names w ∧ w_config w' = w_config w ∧ w_log w' = w_log w ∧
  w_channels w' = w_channels w ∧ w_devices w' = w_devices w ∧
  w_traces w' = w_traces w ∧ g_anim w' = g_anim w.

(** The effect of a link handler called with [nodeA], [nodeB],
    [interfaceA], [interfaceB] from state [w] to state [w']: the two
    interfaces get the admin state [up]; when [g_anim] is set, the two nodes
    get [colour] and [description] in the animation object it points to;
    other interfaces, the other parts of all nodes, other animation objects
    and other nodes' colours and descriptions are as before.  Nothing is
    said of the routing protocols of the two nodes, of the event queue and
    of the output: there the reaction of the protocol engine to the change
    of admin state takes place. *)
Record link_handler_frame (up : bool) (colour : Z * Z * Z) (description : string)
    (nodeA nodeB : Node) (interfaceA interfaceB : nat) (w w' : World) : Prop := {
  frame_rest : same_configuration w w';
  frame_interfaceA :
    ∃ itf, interface_at w nodeA interfaceA = Some itf ∧
           interface_at w' nodeA interfaceA = Some (set_ifup up itf);
  frame_interfaceB :
    ∃ itf, interface_at w nodeB interfaceB = Some itf ∧
           interface_at w' nodeB interfaceB = Some (set_ifup up itf);
  frame_interfaces :
    ∀ n i, (n, i) ≠ (nodeA, interfaceA) -> (n, i) ≠ (nodeB, interfaceB) ->
           interface_at w' n i = interface_at w n i;
  frame_nodes :
    ∀ n, n ≠ nodeA -> n ≠ nodeB -> w_nodes w' !! n = w_nodes w !! n;
  frame_node_parts :
    ∀ n o', w_nodes w' !! n = Some o' ->
      ∃ o, w_nodes w !! n = Some o ∧ n_devices o' = n_devices o ∧
           n_applications o' = n_applications o ∧ n_position o' = n_position o;
  frame_no_anim : g_anim w = None -> w_anims w' = w_anims w;
  frame_anim_nodes :
    ∀ anim, g_anim w = Some anim ->
      node_colour w' anim nodeA = Some colour ∧
      node_colour w' anim nodeB = Some colour ∧
      node_description w' anim nodeA = Some description ∧
      node_description w' anim nodeB = Some description;
  frame_anim_others :
    ∀ anim, g_anim w = Some anim ->
      (anim_fileName <$> w_anims w' !! anim) = (anim_fileName <$> w_anims w !! anim) ∧
      (∀ q, q ≠ anim -> w_anims w' !! q = w_anims w !! q) ∧
      (∀ n, n ≠ nodeA -> n ≠ nodeB ->
         node_colour w' anim n = node_colour w anim n ∧
         node_description w' anim n = node_description w anim n);
}.

(** The two handlers of the driver. *)
Inductive LinkHandler : Type := Failure | Recovery.

Definition handler (h : LinkHandler) : Node -> Node -> nat -> nat -> M unit :=
  match h with Failure => TearDownLink | Recovery => RecoverLink end.

Definition handler_up (h : LinkHandler) : bool :=
  match h with Failure => false | Recovery => true end.

Definition handler_colour (h : LinkHandler) : Z * Z * Z :=
  match h with Failure => (255, 0, 0) | Recovery => (0, 255, 0) end.

Definition handler_description (h : LinkHandler) : string :=
  match h with Failure => "Link Down" | Recovery => "Link Up" end.

(** The shape the two handlers share: [setter] on both interfaces, then the
    animation updates through [g_anim]. *)
Definition link_handler (setter : Node -> nat -> M unit) (r g b : Z)
    (description : string) (nodeA nodeB : Node) (interfaceA interfaceB : nat) : M unit :=
  setter nodeA interfaceA;;
  setter nodeB interfaceB;;
  w ← get_world;
  match g_anim w with
  | Some anim =>
      UpdateNodeColor anim nodeA r g b;;
      UpdateNodeColor anim nodeB r g b;;
      UpdateNodeDescription anim nodeA description;;
      UpdateNodeDescription anim nodeB description
  | None => mret tt
  end.

(** The four animation updates of a handler, as one update of the object. *)
Definition recolour (r g b : Z) (description : string) (nodeA nodeB : Node)
    (o : AnimationInterface) : AnimationInterface :=
  {| anim_fileName := anim_fileName o;
     m_nodeColors :=
       <[nodeB := (r mod 256, g mod 256, b mod 256)]>
         (<[nodeA := (r mod 256, g mod 256, b mod 256)]> (m_nodeColors o));
     m_nodeDescriptions :=
       <[nodeB := description]> (<[nodeA := description]> (m_nodeDescriptions o)) |}.

(** What the handlers need of [Ipv4::SetUp] and [Ipv4::SetDown]: one
    interface of one node gets the admin state [up]; the routing protocols
    of that node may change in any way, and so may the event queue and the
    output; the animation objects and the configuration are as before. *)
Definition admin_update (up : bool) (node : Node) (i : nat) (w w' : World) : Prop :=
  ∃ o ipv4 itf protocols,
    w_nodes w !! node = Some o ∧ n_ipv4 o = Some ipv4 ∧
    m_interfaces ipv4 !! i = Some itf ∧
    w_nodes w' = <[node := set_n_ipv4 (Some
           {| m_interfaces := <[i := set_ifup up itf]> (m_interfaces ipv4);
              m_routingProtocols := protocols |}) o]> (w_nodes w) ∧
    w_anims w' = w_anims w ∧
    same_configuration w w'.

#[global] Instance AnimationInterface_eq_dec : EqDecision AnimationInterface.
Proof. solve_decision. Defined.

(** ** Further observations *)

#[global] Instance LogLevel_eq_dec : EqDecision LogLevel.
Proof. solve_decision. Defined.
#[global] Instance LogEnable_eq_dec : EqDecision LogEnable.
Proof. solve_decision. Defined.
#[global] Instance TraceRequest_eq_dec : EqDecision TraceRequest.
Proof. solve_decision. Defined.
#[global] Instance CsmaChannel_eq_dec : EqDecision CsmaChannel.
Proof. solve_decision. Defined.
#[global] Instance CsmaNetDevice_eq_dec : EqDecision CsmaNetDevice.
Proof. solve_decision. Defined.
#[global] Instance Ipv4InterfaceAddress_eq_dec : EqDecision Ipv4InterfaceAddress.
Proof. solve_decision. Defined.
#[global] Instance Ipv4Interface_eq_dec : EqDecision Ipv4Interface.
Proof. solve_decision. Defined.
#[global] Instance Ipv4RoutingTableEntry_eq_dec : EqDecision Ipv4RoutingTableEntry.
Proof. solve_decision. Defined.
#[global] Instance Rip_eq_dec : EqDecision Rip.
Proof. solve_decision. Defined.
#[global] Instance Ipv4RoutingProtocol_eq_dec : EqDecision Ipv4RoutingProtocol.
Proof. solve_decision. Defined.
#[global] Instance Ipv4L3Protocol_eq_dec : EqDecision Ipv4L3Protocol.
Proof. solve_decision. Defined.

(** The data rate and the delay of each channel, in order of creation. *)
Definition channel_attributes (w : World)
    : list (option AttributeValue * option AttributeValue) :=
  (λ ch, (ch_attributes ch !! "DataRate", ch_attributes ch !! "Delay")) <$> w_channels w.

(** The size and the verbose mode of each installed application. *)
Definition ping_attributes (w : World)
    : list (option AttributeValue * option AttributeValue) :=
  mjoin ((λ o, (λ app, (app_attributes app !! "Size",
                         app_attributes app !! "VerboseMode"))
                 <$> n_applications o) <$> w_nodes w).

(** The file name of the animation object behind [g_anim]. *)
Definition animation_file (w : World) : option string :=
  anim ← g_anim w; anim_fileName <$> w_anims w !! anim.

(** The description the animation object behind [g_anim] holds for the
    node called [name]. *)
Definition description_of (w : World) (name : string) : option string :=
  anim ← g_anim w; node ← Names_Find w name; node_description w anim node.

(** The position of each named node. *)
Definition positions (w : World) : list (string * option (Z * Z)) :=
  (λ p : string * Node, (p.1, o ← w_nodes w !! p.2; n_position o)) <$> w_names w.

Inductive RoutingKind : Type := Rip_routing | Static_routing | Global_routing.

#[global] Instance RoutingKind_eq_dec : EqDecision RoutingKind.
Proof. solve_decision. Defined.

(** The routing protocols of each named node, with their priorities. *)
Definition routing_protocols (w : World) : list (string * list (RoutingKind * Z)) :=
  (λ p : string * Node,
     (p.1,
      match Ipv4_of w p.2 with
      | Some ipv4 =>
          (λ q : Ipv4RoutingProtocol * Z,
             (match q.1 with
              | RipProtocol _ => Rip_routing
              | Ipv4StaticRouting _ => Static_routing
              | Ipv4GlobalRouting => Global_routing
              end, q.2)) <$> m_routingProtocols ipv4
      | None => []
      end)) <$> w_names w.

(** The interfaces of each named node, by index: addresses, admin state
    and the metric of the interface. *)
Definition interface_table (w : World)
    : list (string * list (list Ipv4Address_t * bool * Z)) :=
  (λ p : string * Node,
     (p.1,
      match Ipv4_of w p.2 with
      | Some ipv4 =>
          (λ itf, (m_local <$> m_addresses itf, m_ifup itf, m_metric itf))
            <$> m_interfaces ipv4
      | None => []
      end)) <$> w_names w.

(** The part of the scenario that describes the network and the link
    events: names, channels, devices, the devices, IPv4 stack and position
    of every node, the trace requests and the events other than prints. *)
Definition scenario_core (w : World) :=
  (w_names w, w_channels w, w_devices w,
   (λ o, (n_devices o, n_ipv4 o, n_position o)) <$> w_nodes w,
   w_traces w, link_schedule w).

(** * Properties *)

(** ** Proof support *)

Example Ipv4Address_10_0_6_2 : Ipv4Address "10.0.6.2" = 167773698.
Proof. reflexivity. Qed.

Example Ipv4Mask_24 : Ipv4Mask "255.255.255.0" = 4294967040.
Proof. reflexivity. Qed.

(** A run that ends in [a] and in a state with the decidable property [P],
    checked by evaluation. *)
Lemma run_check {A} `{EqDecision A} (r : result (A * World)) (a : A)
    (P : World -> Prop) (HP : ∀ w, Decision (P w)) :
  match r with
  | Ok (a', w) => bool_decide (a' = a ∧ P w)
  | Fatal _ => false
  end = true ->
  ∃ w, r = Ok (a, w) ∧ P w.
Proof.
  destruct r as [[a' w]|msg]; [|discriminate].
  intros [-> HPw]%bool_decide_eq_true. eauto.
Qed.

Ltac run_check :=
  eapply run_check; vm_compute; reflexivity.

(** The scenario depends on the command line through three booleans and two
    string comparisons only; [by_flags] splits along them. *)
Ltac by_flags argv :=
  destruct argv as [verbose printRoutingTables showPings SplitHorizon];
  unfold main, run_until, main_setup; cbv zeta;
  cbn [arg_verbose arg_printRoutingTables arg_showPings arg_splitHorizonStrategy];
  generalize (cmd_Parse verbose false); clear verbose; intros verbose;
  generalize (cmd_Parse printRoutingTables false);
  clear printRoutingTables; intros printRoutingTables;
  generalize (cmd_Parse showPings false); clear showPings; intros showPings;
  generalize (cmd_Parse SplitHorizon "NoSplitHorizon");
  clear SplitHorizon; intros SplitHorizon;
  destruct verbose, printRoutingTables, showPings;
  (destruct (String.eqb SplitHorizon "NoSplitHorizon");
   [| destruct (String.eqb SplitHorizon "SplitHorizon")]).

Lemma bind_Ok {A B} (m : M A) (f : A -> M B) (w : World) (r : B * World) :
  (m ≫= f) w = Ok r -> ∃ a w1, m w = Ok (a, w1) ∧ f a w1 = Ok r.
Proof.
  unfold mbind, M_bind. destruct (m w) as [[a w1]|msg]; [eauto | discriminate].
Qed.

Lemma update_node_Ok node f w w' :
  update_node node f w = Ok (tt, w') ->
  ∃ o, w_nodes w !! node = Some o ∧ w' = set_nodes (<[node := f o]>) w.
Proof.
  unfold update_node, mbind, M_bind, get_world, modify, fatal.
  destruct (w_nodes w !! node) as [o|]; [|discriminate].
  intros [= <-]. eauto.
Qed.

Lemma update_anim_Ok anim f w w' :
  update_anim anim f w = Ok (tt, w') ->
  ∃ o, w_anims w !! anim = Some o ∧ w' = set_anims (<[anim := f o]>) w.
Proof.
  unfold update_anim, mbind, M_bind, get_world, modify, fatal.
  destruct (w_anims w !! anim) as [o|]; [|discriminate].
  intros [= <-]. eauto.
Qed.

Lemma GetObject_Ipv4_Ok node w ipv4 w' :
  GetObject_Ipv4 node w = Ok (ipv4, w') ->
  w' = w ∧ ∃ o, w_nodes w !! node = Some o ∧ n_ipv4 o = Some ipv4.
Proof.
  unfold GetObject_Ipv4, mbind, M_bind, get_world, mret, M_ret, fatal.
  destruct (w_nodes w !! node) as [o|]; [|discriminate].
  destruct (n_ipv4 o) as [ipv4'|] eqn:E; [|discriminate].
  intros [= <- <-]. eauto.
Qed.

Lemma Ipv4_SetDown_admin node i w w' :
  Ipv4_SetDown node i w = Ok (tt, w') -> admin_update false node i w w'.
Proof.
  unfold Ipv4_SetDown. intros (ipv4 & w1 & Hget & Hput)%bind_Ok.
  apply GetObject_Ipv4_Ok in Hget as (-> & o & Ho & Hipv4).
  destruct (m_interfaces ipv4 !! i) as [itf|] eqn:Hitf; [|discriminate].
  apply update_node_Ok in Hput as (o' & Ho' & ->).
  assert (o' = o) as -> by congruence.
  exists o, ipv4, itf. eexists. by repeat split.
Qed.

Lemma Ipv4_SetUp_admin node i w w' :
  Ipv4_SetUp node i w = Ok (tt, w') -> admin_update true node i w w'.
Proof.
  unfold Ipv4_SetUp. intros (ipv4 & w1 & Hget & Hput)%bind_Ok.
  apply GetObject_Ipv4_Ok in Hget as (-> & o & Ho & Hipv4).
  destruct (m_interfaces ipv4 !! i) as [itf|] eqn:Hitf; [|discriminate].
  apply update_node_Ok in Hput as (o' & Ho' & ->).
  assert (o' = o) as -> by congruence.
  exists o, ipv4, itf. eexists. by repeat split.
Qed.

(** ** The effect of setting one interface up or down *)

Section AdminUpdate.
Context (up : bool) (node : Node) (i : nat) (w w' : World).
Hypothesis Hau : admin_update up node i w w'.

Lemma admin_update_configuration : same_configuration w w'.
Proof. by destruct Hau as (o & ipv4 & itf & ps & _ & _ & _ & _ & _ & ?). Qed.

Lemma admin_update_anims : w_anims w' = w_anims w.
Proof. by destruct Hau as (o & ipv4 & itf & ps & _ & _ & _ & _ & ? & _). Qed.

Lemma admin_update_nodes_other n : n ≠ node -> w_nodes w' !! n = w_nodes w !! n.
Proof.
  destruct Hau as (o & ipv4 & itf & ps & _ & _ & _ & -> & _). intros Hn.
  by apply list_lookup_insert_ne.
Qed.

Lemma admin_update_node_parts n o' :
  w_nodes w' !! n = Some o' ->
  ∃ o, w_nodes w !! n = Some o ∧ n_devices o' = n_devices o ∧
       n_applications o' = n_applications o ∧ n_position o' = n_position o.
Proof.
  destruct (decide (n = node)) as [->|Hn].
  - destruct Hau as (o & ipv4 & itf & ps & Ho & _ & _ & -> & _).
    rewrite list_lookup_insert_eq by eauto using lookup_lt_Some.
    intros [= <-]. eauto.
  - rewrite admin_update_nodes_other by done. eauto.
Qed.

Lemma admin_update_interface :
  ∃ itf, interface_at w node i = Some itf ∧
         interface_at w' node i = Some (set_ifup up itf).
Proof.
  destruct Hau as (o & ipv4 & itf & ps & Ho & Hipv4 & Hitf & Hnodes & _).
  exists itf. unfold interface_at, Ipv4_of. rewrite Hnodes.
  rewrite list_lookup_insert_eq by eauto using lookup_lt_Some.
  rewrite Ho. cbn. rewrite Hipv4. cbn. split; [done|].
  by rewrite list_lookup_insert_eq by eauto using lookup_lt_Some.
Qed.

Lemma admin_update_interfaces_other n j :
  (n, j) ≠ (node, i) -> interface_at w' n j = interface_at w n j.
Proof.
  intros Hne. unfold interface_at, Ipv4_of.
  destruct (decide (n = node)) as [->|Hn].
  - destruct Hau as (o & ipv4 & itf & ps & Ho & Hipv4 & Hitf & Hnodes & _).
    rewrite Hnodes.
    rewrite list_lookup_insert_eq by eauto using lookup_lt_Some.
    rewrite Ho. cbn. rewrite Hipv4. cbn.
    apply list_lookup_insert_ne. congruence.
  - by rewrite admin_update_nodes_other.
Qed.
End AdminUpdate.

Lemma same_configuration_trans w w1 w2 :
  same_configuration w w1 -> same_configuration w1 w2 -> same_configuration w w2.
Proof. unfold same_configuration. intuition congruence. Qed.

Lemma same_configuration_g_anim w w' : same_configuration w w' -> g_anim w' = g_anim w.
Proof. unfold same_configuration. tauto. Qed.

(** Two admin updates in a row leave the configuration and the animation
    objects as they were. *)
Lemma two_admin_updates_rest up nodeA ia nodeB ib w w1 w2 :
  admin_update up nodeA ia w w1 -> admin_update up nodeB ib w1 w2 ->
  same_configuration w w2 ∧ w_anims w2 = w_anims w.
Proof.
  intros HA HB. split.
  - eapply same_configuration_trans; eapply admin_update_configuration; eauto.
  - rewrite (admin_update_anims _ _ _ _ _ HB). eapply admin_update_anims; eauto.
Qed.

Lemma lookup_insert_twice {V} (m : gmap nat V) (a b : nat) (v : V) :
  <[b := v]> (<[a := v]> m) !! a = Some v.
Proof.
  destruct (decide (b = a)) as [->|Hne].
  - apply lookup_insert_eq.
  - rewrite lookup_insert_ne by done. apply lookup_insert_eq.
Qed.

(** The frame of a handler is proved for every [setter] that keeps the
    contract [admin_update], whatever it does to the routing protocols of
    the node, to the event queue and to the output. *)
Section LinkHandlerFrame.
Context (up : bool) (setter : Node -> nat -> M unit) (r g b : Z) (description : string).
Hypothesis setter_admin :
  ∀ node i w w', setter node i w = Ok (tt, w') -> admin_update up node i w w'.

Lemma animation_updates_Ok anim nodeA nodeB w w' :
  (UpdateNodeColor anim nodeA r g b;;
   UpdateNodeColor anim nodeB r g b;;
   UpdateNodeDescription anim nodeA description;;
   UpdateNodeDescription anim nodeB description) w = Ok (tt, w') ->
  ∃ o, w_anims w !! anim = Some o ∧
       w' = set_anims (<[anim := recolour r g b description nodeA nodeB o]>) w.
Proof.
  intros ([] & w1 & H1 & H)%bind_Ok.
  apply bind_Ok in H as ([] & w2 & H2 & H).
  apply bind_Ok in H as ([] & w3 & H3 & H4).
  apply update_anim_Ok in H1 as (o & Ho & ->).
  apply update_anim_Ok in H2 as (o1 & Ho1 & ->).
  apply update_anim_Ok in H3 as (o2 & Ho2 & ->).
  apply update_anim_Ok in H4 as (o3 & Ho3 & ->).
  cbn in Ho1, Ho2, Ho3.
  rewrite lookup_insert_eq in Ho1. injection Ho1 as <-.
  rewrite lookup_insert_eq in Ho2. injection Ho2 as <-.
  rewrite lookup_insert_eq in Ho3. injection Ho3 as <-.
  exists o. split; [done|].
  unfold set_anims; cbn. rewrite !insert_insert_eq. reflexivity.
Qed.

Lemma link_handler_frame_holds nodeA nodeB interfaceA interfaceB w w' :
  link_handler setter r g b description nodeA nodeB interfaceA interfaceB w
    = Ok (tt, w') ->
  link_handler_frame up (r mod 256, g mod 256, b mod 256) description
    nodeA nodeB interfaceA interfaceB w w'.
Proof.
  unfold link_handler. intros ([] & w1 & HA & H)%bind_Ok.
  apply bind_Ok in H as ([] & w2 & HB & H).
  apply bind_Ok in H as (w2' & w2'' & [= <- <-] & H).
  apply setter_admin in HA, HB.
  destruct (two_admin_updates_rest _ _ _ _ _ _ _ _ HA HB) as [Hrest Ha].
  pose proof (same_configuration_g_anim _ _ Hrest) as Hg.
  (* the node list after the two setters *)
  assert (∃ itf, interface_at w nodeA interfaceA = Some itf ∧
                 interface_at w2 nodeA interfaceA = Some (set_ifup up itf)) as HitfA.
  { destruct (admin_update_interface _ _ _ _ _ HA) as (itf & Hw & Hw1).
    exists itf. split; [done|].
    destruct (decide ((nodeA, interfaceA) = (nodeB, interfaceB))) as [[= <- <-]|Hne].
    - destruct (admin_update_interface _ _ _ _ _ HB) as (itf' & Hw1' & Hw2).
      rewrite Hw2. rewrite Hw1 in Hw1'. by injection Hw1' as <-.
    - by rewrite (admin_update_interfaces_other _ _ _ _ _ HB).
  }
  assert (∃ itf, interface_at w nodeB interfaceB = Some itf ∧
                 interface_at w2 nodeB interfaceB = Some (set_ifup up itf)) as HitfB.
  { destruct (admin_update_interface _ _ _ _ _ HB) as (itf' & Hw1' & Hw2).
    destruct (decide ((nodeB, interfaceB) = (nodeA, interfaceA))) as [[= -> ->]|Hne].
    - destruct (admin_update_interface _ _ _ _ _ HA) as (itf & Hw & Hw1).
      exists itf. split; [done|]. rewrite Hw2. rewrite Hw1 in Hw1'.
      by injection Hw1' as <-.
    - exists itf'. split; [|done].
      by rewrite <- (admin_update_interfaces_other _ _ _ _ _ HA). }
  assert (∀ n i, (n, i) ≠ (nodeA, interfaceA) -> (n, i) ≠ (nodeB, interfaceB) ->
            interface_at w2 n i = interface_at w n i) as Hitf.
  { intros n i HnA HnB.
    rewrite (admin_update_interfaces_other _ _ _ _ _ HB) by done.
    by apply (admin_update_interfaces_other _ _ _ _ _ HA). }
  assert (∀ n, n ≠ nodeA -> n ≠ nodeB -> w_nodes w2 !! n = w_nodes w !! n) as Hnodes.
  { intros n HnA HnB.
    rewrite (admin_update_nodes_other _ _ _ _ _ HB) by done.
    by apply (admin_update_nodes_other _ _ _ _ _ HA). }
  assert (∀ n o', w_nodes w2 !! n = Some o' ->
            ∃ o, w_nodes w !! n = Some o ∧ n_devices o' = n_devices o ∧
                 n_applications o' = n_applications o ∧
                 n_position o' = n_position o) as Hparts.
  { intros n o2 Ho2.
    destruct (admin_update_node_parts _ _ _ _ _ HB _ _ Ho2) as (o1 & Ho1 & ? & ? & ?).
    destruct (admin_update_node_parts _ _ _ _ _ HA _ _ Ho1) as (o & Ho & ? & ? & ?).
    exists o. repeat split; congruence. }
  destruct (g_anim w2) as [anim|] eqn:Hanim.
  - apply animation_updates_Ok in H as (o & Ho & ->).
    assert (∀ n i, interface_at (set_anims (<[anim := recolour r g b description nodeA nodeB o]>) w2) n i
                   = interface_at w2 n i) as Hsame by reflexivity.
    split.
    + exact Hrest.
    + destruct HitfA as (itf & ? & ?). exists itf. by rewrite Hsame.
    + destruct HitfB as (itf & ? & ?). exists itf. by rewrite Hsame.
    + intros n i ? ?. rewrite Hsame. by apply Hitf.
    + apply Hnodes.
    + apply Hparts.
    + intros Hnone. congruence.
    + intros anim' Hsome. assert (anim' = anim) as -> by congruence.
      unfold node_colour, node_description. cbn.
      rewrite lookup_insert_eq. cbn.
      by rewrite !lookup_insert_twice, !lookup_insert_eq.
    + intros anim' Hsome. assert (anim' = anim) as -> by congruence.
      unfold node_colour, node_description. cbn.
      rewrite lookup_insert_eq, <- Ha, Ho. cbn.
      split; [done|]. split.
      * intros q Hq. by rewrite lookup_insert_ne.
      * intros n HnA HnB. by simplify_map_eq.
  - injection H as <-. split; try done.
    + intros anim Hsome. congruence.
    + intros anim Hsome. congruence.
Qed.
End LinkHandlerFrame.

Lemma world_after_Ok (m : M unit) (w : World) :
  is_Ok (m w) = true -> m w = Ok (tt, world_after m w).
Proof.
  unfold world_after. destruct (m w) as [[[] w']|msg]; [done | discriminate].
Qed.

(** ** The claims *)

(** C1 (what the driver configures).  For every command line the RIP
    interface metrics are: 10 on C's and on D's interface in 10.0.4.0/24
    (net5), 5 on B's interface in 10.0.3.0/24 (net4), and 5 on C's interface
    1, which lies in 10.0.2.0/24 (net3, A-C); C's interface in 10.0.3.0/24
    (net4) has the default metric 1, as has every other interface. *)
Theorem main_rip_interface_metrics (argv : CommandLine) :
  ∃ w, main_setup argv World_init = Ok (tt, w) ∧
    rip_interfaces w =
      [("RouterA", 1%nat, Ipv4Address "10.0.0.0", 1);
       ("RouterA", 2%nat, Ipv4Address "10.0.1.0", 1);
       ("RouterA", 3%nat, Ipv4Address "10.0.2.0", 1);
       ("RouterB", 1%nat, Ipv4Address "10.0.1.0", 1);
       ("RouterB", 2%nat, Ipv4Address "10.0.3.0", 5);
       ("RouterB", 3%nat, Ipv4Address "10.0.5.0", 1);
       ("RouterC", 1%nat, Ipv4Address "10.0.2.0", 5);
       ("RouterC", 2%nat, Ipv4Address "10.0.3.0", 1);
       ("RouterC", 3%nat, Ipv4Address "10.0.4.0", 10);
       ("RouterD", 1%nat, Ipv4Address "10.0.4.0", 10);
       ("RouterD", 2%nat, Ipv4Address "10.0.5.0", 1);
       ("RouterD", 3%nat, Ipv4Address "10.0.6.0", 1)] ∧
    metric_on w "RouterC" (Ipv4Address "10.0.3.0") = Some 1 ∧
    metric_on w "RouterC" (Ipv4Address "10.0.2.0") = Some 5.
Proof.
  by_flags argv; run_check.
Qed.

(** C2 (what the driver schedules).  For every command line the events
    other than prints are the four link events and the stop at 131 s.  The
    event at 40 s and the one at 80 s name the two endpoints of 10.0.5.0/24
    (net6, B-D).  The events at 60 s and at 100 s name D's endpoint of
    10.0.4.0/24 (net5, C-D) and C's interface 2, which is C's endpoint of
    10.0.3.0/24 (net4, B-C): run up to 60 s, C's interface 3 on net5 is
    still up. *)
Theorem main_link_schedule (argv : CommandLine) :
  (∃ w, main_setup argv World_init = Ok (tt, w) ∧
     w_names w = [("SrcNode", 0); ("DstNode", 1); ("RouterA", 2);
                  ("RouterB", 3); ("RouterC", 4); ("RouterD", 5)]%nat ∧
     link_schedule w =
       [(Seconds 40, CbTearDownLink 3 5 3 2);
        (Seconds 60, CbTearDownLink 4 5 2 1);
        (Seconds 80, CbRecoverLink 3 5 3 2);
        (Seconds 100, CbRecoverLink 4 5 2 1);
        (Seconds 131, CbStop)] ∧
     endpoints w (Ipv4Address "10.0.5.0") = [(3, 3); (5, 2)]%nat ∧
     endpoints w (Ipv4Address "10.0.4.0") = [(4, 3); (5, 1)]%nat ∧
     endpoints w (Ipv4Address "10.0.3.0") = [(3, 2); (4, 2)]%nat ∧
     down_interfaces w = []) ∧
  (∃ w, run_until argv (Seconds 40) World_init = Ok (tt, w) ∧
     down_interfaces w = [(3, 3); (5, 2)]%nat) ∧
  (∃ w, run_until argv (Seconds 60) World_init = Ok (tt, w) ∧
     down_interfaces w = [(3, 3); (4, 2); (5, 1); (5, 2)]%nat ∧
     IsUp w 4 3 = Some true) ∧
  (∃ w, run_until argv (Seconds 80) World_init = Ok (tt, w) ∧
     down_interfaces w = [(4, 2); (5, 1)]%nat) ∧
  (∃ w, run_until argv (Seconds 100) World_init = Ok (tt, w) ∧
     down_interfaces w = []) ∧
  (∃ w, main argv World_init = Ok (0, w) ∧
     sim_now (w_sim w) = Seconds 131 ∧ down_interfaces w = []).
Proof.
  by_flags argv; repeat split; run_check.
Qed.

(** C3.  For every command line exactly two interfaces are excluded from
    RIP: interface 1 of router A, which is A's interface in 10.0.0.0/24
    (net1, towards SRC), and interface 3 of router D, which is D's interface
    in 10.0.6.0/24 (net7, towards DST). *)
Theorem main_rip_excluded_interfaces (argv : CommandLine) :
  ∃ w, main_setup argv World_init = Ok (tt, w) ∧
    excluded_interfaces w =
      [("RouterA", 1%nat, Some (Ipv4Address "10.0.0.0"));
       ("RouterD", 3%nat, Some (Ipv4Address "10.0.6.0"))] ∧
    snd <$> interface_on w "RouterA" (Ipv4Address "10.0.0.0") = Some 1%nat ∧
    snd <$> interface_on w "RouterD" (Ipv4Address "10.0.6.0") = Some 3%nat.
Proof.
  by_flags argv; run_check.
Qed.

(** C4.  For every command line the topology has exactly seven networks,
    with these endpoints and subnets, each with mask 255.255.255.0: net1
    SRC-A 10.0.0.0, net2 A-B 10.0.1.0, net3 A-C 10.0.2.0, net4 B-C 10.0.3.0,
    net5 C-D 10.0.4.0, net6 B-D 10.0.5.0, net7 D-DST 10.0.6.0. *)
Theorem main_topology (argv : CommandLine) :
  ∃ w, main_setup argv World_init = Ok (tt, w) ∧
    let mask := Ipv4Mask "255.255.255.0" in
    networks w =
      [([Some "SrcNode"; Some "RouterA"], [(Ipv4Address "10.0.0.0", mask)]);
       ([Some "RouterA"; Some "RouterB"], [(Ipv4Address "10.0.1.0", mask)]);
       ([Some "RouterA"; Some "RouterC"], [(Ipv4Address "10.0.2.0", mask)]);
       ([Some "RouterB"; Some "RouterC"], [(Ipv4Address "10.0.3.0", mask)]);
       ([Some "RouterC"; Some "RouterD"], [(Ipv4Address "10.0.4.0", mask)]);
       ([Some "RouterB"; Some "RouterD"], [(Ipv4Address "10.0.5.0", mask)]);
       ([Some "RouterD"; Some "DstNode"], [(Ipv4Address "10.0.6.0", mask)])] ∧
    length (w_nodes w) = 6%nat.
Proof.
  by_flags argv; run_check.
Qed.

(** C5.  For every command line exactly one application is installed: a
    ping on SRC with destination 10.0.6.2, interval 1 s, start time 1 s and
    stop time 110 s; 10.0.6.2 is the address of DST in 10.0.6.0/24. *)
Theorem main_ping_application (argv : CommandLine) :
  ∃ w, main_setup argv World_init = Ok (tt, w) ∧
    applications w =
      [(Some "SrcNode", "ns3::Ping",
        Some (AddressValue (Ipv4Address "10.0.6.2")),
        Some (TimeValue (Seconds 1)), Seconds 1, Seconds 110)] ∧
    address_on w "DstNode" (Ipv4Address "10.0.6.0") = Some (Ipv4Address "10.0.6.2").
Proof.
  by_flags argv; run_check.
Qed.

(** C6.  For every command line each host has exactly one default route in
    its static routing: on SRC via 10.0.0.2, the address of A in
    10.0.0.0/24, and on DST via 10.0.6.1, the address of D in 10.0.6.0/24,
    both on interface 1; the routers have no static routing. *)
Theorem main_static_default_routes (argv : CommandLine) :
  ∃ w, main_setup argv World_init = Ok (tt, w) ∧
    default_routes w "SrcNode" = Some [(Ipv4Address "10.0.0.2", 1%nat)] ∧
    default_routes w "DstNode" = Some [(Ipv4Address "10.0.6.1", 1%nat)] ∧
    address_on w "RouterA" (Ipv4Address "10.0.0.0") = Some (Ipv4Address "10.0.0.2") ∧
    address_on w "RouterD" (Ipv4Address "10.0.6.0") = Some (Ipv4Address "10.0.6.1") ∧
    default_routes w <$> ["RouterA"; "RouterB"; "RouterC"; "RouterD"] =
      [None; None; None; None].
Proof.
  by_flags argv; run_check.
Qed.

(** C7 as stated fails: in the state the driver builds, the global pointer
    [g_anim] is set, and the failure handler for link B-D (at 40 s) replaces
    the description the driver gave router B, in the animation object behind
    that pointer, by "Link Down"; with the pointer cleared the same call
    leaves the description as it was.  The handlers use a process-wide
    mutable handle and change state other than the admin state of the two
    interfaces. *)
Lemma link_handler_writes_through_g_anim :
  g_anim scenario_world = Some 0%nat ∧
  is_Ok (TearDownLink 3 5 3 2 scenario_world) = true ∧
  node_description scenario_world 0 3
    = Some ("Router B" +:+ String "010" "NoSplitHorizon") ∧
  node_description (world_after (TearDownLink 3 5 3 2) scenario_world) 0 3
    = Some "Link Down" ∧
  is_Ok (TearDownLink 3 5 3 2 (set_g_anim None scenario_world)) = true ∧
  node_description (world_after (TearDownLink 3 5 3 2) (set_g_anim None scenario_world)) 0 3
    = Some ("Router B" +:+ String "010" "NoSplitHorizon").
Proof.
  vm_compute. repeat split.
Qed.

(** C7 as amended.  A call of [TearDownLink] or [RecoverLink] that returns
    sets the admin state of the two named interfaces (down, or up) and, when
    the global pointer [g_anim] is set, the colour (red, or green) and the
    description ("Link Down", or "Link Up") of the two nodes in the
    animation object it points to.  The handlers change nothing else of
    the following: every other interface, the devices, applications and
    positions of all nodes, every other node, every other animation object
    and node colour or description, [g_anim] itself, and the names,
    configuration defaults, log enablings, channels, devices and trace
    requests.  What the IPv4 stack does inside [SetDown] and [SetUp] to the
    routing protocols of the two nodes, to the event queue and to the
    output is not part of the statement. *)
Theorem link_handlers_frame (h : LinkHandler) (nodeA nodeB : Node)
    (interfaceA interfaceB : nat) (w w' : World) :
  handler h nodeA nodeB interfaceA interfaceB w = Ok (tt, w') ->
  link_handler_frame (handler_up h) (handler_colour h) (handler_description h)
    nodeA nodeB interfaceA interfaceB w w'.
Proof.
  destruct h; intros H.
  - exact (link_handler_frame_holds false Ipv4_SetDown 255 0 0 "Link Down"
             Ipv4_SetDown_admin _ _ _ _ _ _ H).
  - exact (link_handler_frame_holds true Ipv4_SetUp 0 255 0 "Link Up"
             Ipv4_SetUp_admin _ _ _ _ _ _ H).
Qed.

Lemma link_handlers_frame_witness :
  handler Failure 3 5 3 2 scenario_world
    = Ok (tt, world_after (TearDownLink 3 5 3 2) scenario_world) ∧
  link_handler_frame false (255, 0, 0) "Link Down" 3 5 3 2 scenario_world
    (world_after (TearDownLink 3 5 3 2) scenario_world).
Proof.
  assert (handler Failure 3 5 3 2 scenario_world
          = Ok (tt, world_after (TearDownLink 3 5 3 2) scenario_world)) as H.
  { apply world_after_Ok. vm_compute. reflexivity. }
  split; [exact H | exact (link_handlers_frame Failure 3 5 3 2 _ _ H)].
Defined.

(** C9.  For every command line whose splitHorizonStrategy is given and is
    neither "NoSplitHorizon" nor "SplitHorizon", the driver sets the default
    of ns3::RipNg::SplitHorizon to POISON_REVERSE, builds the scenario
    without a fatal error, and the program runs to exit code 0. *)
Theorem unrecognized_strategy_is_poison_reverse (argv : CommandLine) (s : string) :
  arg_splitHorizonStrategy argv = Some s ->
  s ≠ "NoSplitHorizon" ->
  s ≠ "SplitHorizon" ->
  (∃ w, main_setup argv World_init = Ok (tt, w) ∧
     w_config w !! "ns3::RipNg::SplitHorizon" = Some (EnumValue RipNg_POISON_REVERSE)) ∧
  (∃ w, main argv World_init = Ok (0, w) ∧
     w_config w !! "ns3::RipNg::SplitHorizon" = Some (EnumValue RipNg_POISON_REVERSE)).
Proof.
  intros Hs Hno Hsh.
  apply String.eqb_neq in Hno, Hsh.
  destruct argv as [verbose printRoutingTables showPings SplitHorizon].
  cbn in Hs. subst SplitHorizon.
  unfold main, main_setup; cbv zeta.
  cbn [arg_verbose arg_printRoutingTables arg_showPings arg_splitHorizonStrategy].
  change (cmd_Parse (Some s) "NoSplitHorizon") with s.
  rewrite Hno, Hsh.
  destruct (cmd_Parse verbose false), (cmd_Parse printRoutingTables false),
    (cmd_Parse showPings false); split; run_check.
Qed.

Lemma unrecognized_strategy_witness :
  let argv := {| arg_verbose := None; arg_printRoutingTables := None;
                 arg_showPings := None;
                 arg_splitHorizonStrategy := Some "splithorizon" |} in
  (∃ w, main_setup argv World_init = Ok (tt, w) ∧
     w_config w !! "ns3::RipNg::SplitHorizon" = Some (EnumValue RipNg_POISON_REVERSE)) ∧
  (∃ w, main argv World_init = Ok (0, w) ∧
     w_config w !! "ns3::RipNg::SplitHorizon" = Some (EnumValue RipNg_POISON_REVERSE)).
Proof.
  intros argv.
  apply (unrecognized_strategy_is_poison_reverse argv "splithorizon");
    [reflexivity | discriminate | discriminate].
Defined.

(** C10.  For every command line the routing tables of A, B, C and D are
    scheduled for printing at 30, 60 and 90 s, and are printed in the run,
    exactly when the printRoutingTables flag is false; nothing is scheduled
    or printed when it is true.  With no flag given they are printed. *)
Theorem snapshots_printed_iff_flag_false (argv : CommandLine) :
  let printRoutingTables := cmd_Parse (arg_printRoutingTables argv) false in
  (∃ w, main_setup argv World_init = Ok (tt, w) ∧
     print_schedule w = if printRoutingTables then [] else snapshots) ∧
  (∃ w, main argv World_init = Ok (0, w) ∧
     printed w = if printRoutingTables then [] else snapshots) ∧
  cmd_Parse (arg_printRoutingTables no_flags) false = false ∧
  snapshots ≠ [].
Proof.
  by_flags argv; repeat split; try discriminate; run_check.
Qed.

(** ** When the handlers return *)

Lemma bind_Ok_intro {A B} (m : M A) (f : A -> M B) (w w1 : World) (a : A) :
  m w = Ok (a, w1) -> (m ≫= f) w = f a w1.
Proof. unfold mbind, M_bind. by intros ->. Qed.

Lemma is_Ok_inv {A} (r : result (A * World)) :
  is_Ok r = true -> ∃ a w', r = Ok (a, w').
Proof. destruct r as [[a w']|msg]; [eauto | discriminate]. Qed.

Lemma interface_at_Some w node i itf :
  interface_at w node i = Some itf ->
  ∃ o ipv4, w_nodes w !! node = Some o ∧ n_ipv4 o = Some ipv4 ∧
            m_interfaces ipv4 !! i = Some itf.
Proof.
  unfold interface_at, Ipv4_of.
  destruct (w_nodes w !! node) as [o|]; [|discriminate]. cbn.
  destruct (n_ipv4 o) as [ipv4|] eqn:Hipv4; [|discriminate]. cbn.
  intros Hitf. by exists o, ipv4.
Qed.

Lemma GetObject_Ipv4_intro node w o ipv4 :
  w_nodes w !! node = Some o -> n_ipv4 o = Some ipv4 ->
  GetObject_Ipv4 node w = Ok (ipv4, w).
Proof.
  intros Ho Hipv4.
  unfold GetObject_Ipv4, mbind, M_bind, get_world, mret, M_ret.
  by rewrite Ho, Hipv4.
Qed.

Lemma update_node_intro node f w o :
  w_nodes w !! node = Some o ->
  update_node node f w = Ok (tt, set_nodes (<[node := f o]>) w).
Proof.
  intros Ho. unfold update_node, mbind, M_bind, get_world, modify. by rewrite Ho.
Qed.

Lemma Ipv4_SetDown_returns node i w :
  is_Some (interface_at w node i) -> ∃ w', Ipv4_SetDown node i w = Ok (tt, w').
Proof.
  intros [itf (o & ipv4 & Ho & Hipv4 & Hitf)%interface_at_Some].
  unfold Ipv4_SetDown.
  rewrite (bind_Ok_intro _ _ _ _ _ (GetObject_Ipv4_intro _ _ _ _ Ho Hipv4)).
  rewrite Hitf. unfold put_Ipv4. rewrite (update_node_intro _ _ _ _ Ho). eauto.
Qed.

Lemma Ipv4_SetUp_returns node i w :
  is_Some (interface_at w node i) -> ∃ w', Ipv4_SetUp node i w = Ok (tt, w').
Proof.
  intros [itf (o & ipv4 & Ho & Hipv4 & Hitf)%interface_at_Some].
  unfold Ipv4_SetUp.
  rewrite (bind_Ok_intro _ _ _ _ _ (GetObject_Ipv4_intro _ _ _ _ Ho Hipv4)).
  rewrite Hitf. unfold put_Ipv4. rewrite (update_node_intro _ _ _ _ Ho). eauto.
Qed.

Lemma admin_update_is_Some up node i w w' n j :
  admin_update up node i w w' ->
  is_Some (interface_at w' n j) ↔ is_Some (interface_at w n j).
Proof.
  intros Hau. destruct (decide ((n, j) = (node, i))) as [[= -> ->]|Hne].
  - destruct (admin_update_interface _ _ _ _ _ Hau) as (itf & -> & ->).
    split; eauto.
  - by rewrite (admin_update_interfaces_other _ _ _ _ _ Hau).
Qed.

Lemma update_anim_intro anim f w o :
  w_anims w !! anim = Some o ->
  update_anim anim f w = Ok (tt, set_anims (<[anim := f o]>) w).
Proof.
  intros Ho. unfold update_anim, mbind, M_bind, get_world, modify. by rewrite Ho.
Qed.

Section LinkHandlerReturns.
Context (up : bool) (setter : Node -> nat -> M unit) (r g b : Z) (description : string).
Hypothesis setter_admin :
  ∀ node i w w', setter node i w = Ok (tt, w') -> admin_update up node i w w'.
Hypothesis setter_returns :
  ∀ node i w, is_Some (interface_at w node i) -> ∃ w', setter node i w = Ok (tt, w').

Lemma animation_updates_returns anim nodeA nodeB w :
  is_Some (w_anims w !! anim) ->
  ∃ w', (UpdateNodeColor anim nodeA r g b;;
         UpdateNodeColor anim nodeB r g b;;
         UpdateNodeDescription anim nodeA description;;
         UpdateNodeDescription anim nodeB description) w = Ok (tt, w').
Proof.
  intros [o Ho]. unfold UpdateNodeColor, UpdateNodeDescription.
  rewrite (bind_Ok_intro _ _ _ _ _ (update_anim_intro _ _ _ _ Ho)).
  erewrite bind_Ok_intro; [|apply update_anim_intro; cbn; apply lookup_insert_eq].
  erewrite bind_Ok_intro; [|apply update_anim_intro; cbn; apply lookup_insert_eq].
  erewrite update_anim_intro; [|cbn; apply lookup_insert_eq]. eauto.
Qed.

Lemma link_handler_returns nodeA nodeB interfaceA interfaceB w :
  is_Some (interface_at w nodeA interfaceA) ->
  is_Some (interface_at w nodeB interfaceB) ->
  (∀ anim, g_anim w = Some anim -> is_Some (w_anims w !! anim)) ->
  ∃ w', link_handler setter r g b description nodeA nodeB interfaceA interfaceB w
        = Ok (tt, w').
Proof.
  intros HA HB Hanim. unfold link_handler.
  destruct (setter_returns _ _ _ HA) as [w1 H1].
  rewrite (bind_Ok_intro _ _ _ _ _ H1).
  apply setter_admin in H1 as Hau1.
  apply (admin_update_is_Some _ _ _ _ _ nodeB interfaceB Hau1) in HB.
  destruct (setter_returns _ _ _ HB) as [w2 H2].
  rewrite (bind_Ok_intro _ _ _ _ _ H2).
  apply setter_admin in H2 as Hau2.
  destruct (two_admin_updates_rest _ _ _ _ _ _ _ _ Hau1 Hau2) as [Hrest Ha].
  assert (get_world w2 = Ok (w2, w2)) as Hget by reflexivity.
  rewrite (bind_Ok_intro _ _ _ _ _ Hget).
  pose proof (same_configuration_g_anim _ _ Hrest) as Hg.
  destruct (g_anim w2) as [anim|] eqn:E.
  - apply animation_updates_returns. rewrite Ha. by apply Hanim.
  - eauto.
Qed.

Lemma link_handler_returns_iff nodeA nodeB interfaceA interfaceB w :
  is_Ok (link_handler setter r g b description nodeA nodeB interfaceA interfaceB w)
    = true ↔
  is_Some (interface_at w nodeA interfaceA) ∧
  is_Some (interface_at w nodeB interfaceB) ∧
  (∀ anim, g_anim w = Some anim -> is_Some (w_anims w !! anim)).
Proof.
  split.
  - intros ([] & w' & H)%is_Ok_inv.
    destruct (link_handler_frame_holds up setter r g b description setter_admin
                _ _ _ _ _ _ H) as [_ (itfA & HA & _) (itfB & HB & _) _ _ _ _ Hcol Hoth].
    repeat split; [by rewrite HA | by rewrite HB |].
    intros anim Hanim. destruct (Hcol anim Hanim) as (Hc & _).
    destruct (Hoth anim Hanim) as (Hfile & _).
    unfold node_colour in Hc.
    destruct (w_anims w' !! anim) as [o'|]; [|discriminate].
    destruct (w_anims w !! anim) as [o|]; [eauto | discriminate].
  - intros (HA & HB & Hanim).
    destruct (link_handler_returns _ _ _ _ _ HA HB Hanim) as [w' ->]. done.
Qed.
End LinkHandlerReturns.

Lemma IsUp_interface_at w n i : IsUp w n i = m_ifup <$> interface_at w n i.
Proof.
  unfold IsUp, interface_at. by destruct (Ipv4_of w n).
Qed.

Lemma set_ifup_up itf : m_ifup itf = true -> set_ifup true itf = itf.
Proof. destruct itf; cbn. by intros ->. Qed.

Lemma handler_frame_holds h nodeA nodeB interfaceA interfaceB w w' :
  handler h nodeA nodeB interfaceA interfaceB w = Ok (tt, w') ->
  link_handler_frame (handler_up h) (handler_colour h) (handler_description h)
    nodeA nodeB interfaceA interfaceB w w'.
Proof.
  destruct h; intros H.
  - exact (link_handler_frame_holds false Ipv4_SetDown 255 0 0 "Link Down"
             Ipv4_SetDown_admin _ _ _ _ _ _ H).
  - exact (link_handler_frame_holds true Ipv4_SetUp 0 255 0 "Link Up"
             Ipv4_SetUp_admin _ _ _ _ _ _ H).
Qed.

Lemma handler_returns h nodeA nodeB interfaceA interfaceB w :
  is_Some (interface_at w nodeA interfaceA) ->
  is_Some (interface_at w nodeB interfaceB) ->
  (∀ anim, g_anim w = Some anim -> is_Some (w_anims w !! anim)) ->
  ∃ w', handler h nodeA nodeB interfaceA interfaceB w = Ok (tt, w').
Proof.
  destruct h.
  - apply (link_handler_returns false Ipv4_SetDown 255 0 0 "Link Down"
             Ipv4_SetDown_admin Ipv4_SetDown_returns).
  - apply (link_handler_returns true Ipv4_SetUp 0 255 0 "Link Up"
             Ipv4_SetUp_admin Ipv4_SetUp_returns).
Qed.

(** After a handler has returned, the same interfaces and the same
    animation object are there for the next call. *)
Lemma handler_enables_next h nodeA nodeB interfaceA interfaceB w w' :
  handler h nodeA nodeB interfaceA interfaceB w = Ok (tt, w') ->
  is_Some (interface_at w' nodeA interfaceA) ∧
  is_Some (interface_at w' nodeB interfaceB) ∧
  (∀ anim, g_anim w' = Some anim -> is_Some (w_anims w' !! anim)).
Proof.
  intros [Hrest (itfA & _ & HA) (itfB & _ & HB) _ _ _ _ Hcol _]%handler_frame_holds.
  repeat split; [by rewrite HA | by rewrite HB |].
  intros anim Hanim. rewrite (same_configuration_g_anim _ _ Hrest) in Hanim.
  destruct (Hcol anim Hanim) as (Hc & _). unfold node_colour in Hc.
  destruct (w_anims w' !! anim); [eauto | discriminate].
Qed.

(** X1.  [TearDownLink] and [RecoverLink] return exactly when both nodes
    have an IPv4 stack with the named interface and [g_anim] is null or
    points to a live animation object; otherwise the call dereferences a
    null or dangling pointer. *)
Theorem handler_returns_iff (h : LinkHandler) (nodeA nodeB : Node)
    (interfaceA interfaceB : nat) (w : World) :
  is_Ok (handler h nodeA nodeB interfaceA interfaceB w) = true ↔
  is_Some (interface_at w nodeA interfaceA) ∧
  is_Some (interface_at w nodeB interfaceB) ∧
  (∀ anim, g_anim w = Some anim -> is_Some (w_anims w !! anim)).
Proof.
  destruct h.
  - apply (link_handler_returns_iff false Ipv4_SetDown 255 0 0 "Link Down"
             Ipv4_SetDown_admin Ipv4_SetDown_returns).
  - apply (link_handler_returns_iff true Ipv4_SetUp 0 255 0 "Link Up"
             Ipv4_SetUp_admin Ipv4_SetUp_returns).
Qed.

(** X2.  [TearDownLink] never brings an interface up and [RecoverLink]
    never brings one down: an interface that is up after a failure handler
    was up before it, and one that is down after a recovery handler was
    down before it. *)
Theorem handler_admin_state_one_way (h : LinkHandler) (nodeA nodeB : Node)
    (interfaceA interfaceB : nat) (w w' : World) (n : Node) (i : nat) :
  handler h nodeA nodeB interfaceA interfaceB w = Ok (tt, w') ->
  IsUp w' n i = Some (negb (handler_up h)) ->
  IsUp w n i = Some (negb (handler_up h)).
Proof.
  intros [_ (itfA & _ & HA) (itfB & _ & HB) Hoth _ _ _ _ _]%handler_frame_holds.
  rewrite !IsUp_interface_at.
  destruct (decide ((n, i) = (nodeA, interfaceA))) as [[= -> ->]|HnA].
  { rewrite HA. cbn. by destruct (handler_up h). }
  destruct (decide ((n, i) = (nodeB, interfaceB))) as [[= -> ->]|HnB].
  { rewrite HB. cbn. by destruct (handler_up h). }
  by rewrite Hoth.
Qed.

(** X3.  After [TearDownLink] on two interfaces that were up, [RecoverLink]
    with the same arguments returns and restores every interface of every
    node to what it was; [g_anim] is as before, and when it is set both
    nodes end up green with the description "Link Up". *)
Theorem tear_down_then_recover_restores (nodeA nodeB : Node)
    (interfaceA interfaceB : nat) (w w1 : World) :
  TearDownLink nodeA nodeB interfaceA interfaceB w = Ok (tt, w1) ->
  IsUp w nodeA interfaceA = Some true ->
  IsUp w nodeB interfaceB = Some true ->
  ∃ w2, RecoverLink nodeA nodeB interfaceA interfaceB w1 = Ok (tt, w2) ∧
        (∀ n i, interface_at w2 n i = interface_at w n i) ∧
        g_anim w2 = g_anim w ∧
        (∀ anim, g_anim w = Some anim ->
           node_colour w2 anim nodeA = Some (0, 255, 0) ∧
           node_colour w2 anim nodeB = Some (0, 255, 0) ∧
           node_description w2 anim nodeA = Some "Link Up" ∧
           node_description w2 anim nodeB = Some "Link Up").
Proof.
  intros Hdown HupA HupB.
  destruct (handler_enables_next Failure _ _ _ _ _ _ Hdown) as (HA1 & HB1 & Hanim1).
  destruct (handler_returns Recovery _ _ _ _ _ HA1 HB1 Hanim1) as [w2 Hup].
  exists w2. split; [exact Hup|].
  apply (handler_frame_holds Failure) in Hdown
    as [Hrest1 (itfA & HA & HA') (itfB & HB & HB') Hoth1 _ _ _ _ _].
  apply (handler_frame_holds Recovery) in Hup
    as [Hrest2 (itfA1 & HA1' & HA2) (itfB1 & HB1' & HB2) Hoth2 _ _ _ Hcol2 _].
  rewrite IsUp_interface_at, HA in HupA. rewrite IsUp_interface_at, HB in HupB.
  cbn in HupA, HupB, HA', HB', HA2, HB2, Hcol2.
  injection HupA as HupA. injection HupB as HupB.
  assert (g_anim w1 = g_anim w) as Hg1 by by apply same_configuration_g_anim.
  assert (g_anim w2 = g_anim w1) as Hg2 by by apply same_configuration_g_anim.
  split; [|split; [congruence|]].
  - intros n i.
    destruct (decide ((n, i) = (nodeA, interfaceA))) as [[= -> ->]|HnA].
    { rewrite HA2, HA. rewrite HA' in HA1'. injection HA1' as <-.
      f_equal. exact (set_ifup_up itfA HupA). }
    destruct (decide ((n, i) = (nodeB, interfaceB))) as [[= -> ->]|HnB].
    { rewrite HB2, HB. rewrite HB' in HB1'. injection HB1' as <-.
      f_equal. exact (set_ifup_up itfB HupB). }
    rewrite Hoth2 by done. by apply Hoth1.
  - intros anim Hanim. apply Hcol2. congruence.
Qed.

(** X4.  A handler that has returned returns again on the same arguments,
    and the second call changes no interface and no node colour or
    description. *)
Theorem handler_twice_as_once (h : LinkHandler) (nodeA nodeB : Node)
    (interfaceA interfaceB : nat) (w w1 : World) :
  handler h nodeA nodeB interfaceA interfaceB w = Ok (tt, w1) ->
  ∃ w2, handler h nodeA nodeB interfaceA interfaceB w1 = Ok (tt, w2) ∧
        (∀ n i, interface_at w2 n i = interface_at w1 n i) ∧
        (∀ anim n, node_colour w2 anim n = node_colour w1 anim n ∧
                   node_description w2 anim n = node_description w1 anim n).
Proof.
  intros H1.
  destruct (handler_enables_next _ _ _ _ _ _ _ H1) as (HA1 & HB1 & Hanim1).
  destruct (handler_returns h _ _ _ _ _ HA1 HB1 Hanim1) as [w2 H2].
  exists w2. split; [exact H2|].
  apply handler_frame_holds in H1
    as [Hrest1 (itfA & HA & HA') (itfB & HB & HB') _ _ _ _ Hcol1 _].
  apply handler_frame_holds in H2
    as [Hrest2 (itfA1 & HA1' & HA2) (itfB1 & HB1' & HB2) Hoth2 _ _ Hnone2 Hcol2 Hrem2].
  assert (g_anim w1 = g_anim w) as Hg1 by by apply same_configuration_g_anim.
  split.
  - intros n i.
    destruct (decide ((n, i) = (nodeA, interfaceA))) as [[= -> ->]|HnA].
    { rewrite HA2, HA'. rewrite HA' in HA1'. by injection HA1' as <-. }
    destruct (decide ((n, i) = (nodeB, interfaceB))) as [[= -> ->]|HnB].
    { rewrite HB2, HB'. rewrite HB' in HB1'. by injection HB1' as <-. }
    by apply Hoth2.
  - intros anim n.
    destruct (g_anim w1) as [p|] eqn:Hp.
    + destruct (Hrem2 p eq_refl) as (_ & Hq & Hn).
      destruct (decide (anim = p)) as [->|Hne].
      * destruct (Hcol1 p (eq_sym Hg1)) as (c1A & c1B & d1A & d1B).
        destruct (Hcol2 p eq_refl) as (c2A & c2B & d2A & d2B).
        destruct (decide (n = nodeA)) as [->|HnA]; [by rewrite c1A, c2A, d1A, d2A|].
        destruct (decide (n = nodeB)) as [->|HnB]; [by rewrite c1B, c2B, d1B, d2B|].
        by apply Hn.
      * unfold node_colour, node_description. by rewrite Hq.
    + unfold node_colour, node_description. by rewrite Hnone2.
Qed.

Lemma handler_admin_state_one_way_witness :
  let w' := world_after (TearDownLink 3 5 3 2) scenario_world in
  handler Failure 3 5 3 2 scenario_world = Ok (tt, w') ∧
  IsUp w' 4 3 = Some (negb (handler_up Failure)) ∧
  IsUp scenario_world 4 3 = Some (negb (handler_up Failure)).
Proof.
  intros w'.
  assert (handler Failure 3 5 3 2 scenario_world = Ok (tt, w')) as H
    by (apply world_after_Ok; vm_compute; reflexivity).
  assert (IsUp w' 4 3 = Some (negb (handler_up Failure))) as Hup
    by (vm_compute; reflexivity).
  split; [exact H | split; [exact Hup |]].
  exact (handler_admin_state_one_way Failure 3 5 3 2 _ _ 4 3 H Hup).
Defined.

Lemma tear_down_then_recover_restores_witness :
  let w1 := world_after (TearDownLink 3 5 3 2) scenario_world in
  TearDownLink 3 5 3 2 scenario_world = Ok (tt, w1) ∧
  IsUp scenario_world 3 3 = Some true ∧
  IsUp scenario_world 5 2 = Some true ∧
  ∃ w2, RecoverLink 3 5 3 2 w1 = Ok (tt, w2) ∧
        (∀ n i, interface_at w2 n i = interface_at scenario_world n i) ∧
        g_anim w2 = g_anim scenario_world ∧
        (∀ anim, g_anim scenario_world = Some anim ->
           node_colour w2 anim 3 = Some (0, 255, 0) ∧
           node_colour w2 anim 5 = Some (0, 255, 0) ∧
           node_description w2 anim 3 = Some "Link Up" ∧
           node_description w2 anim 5 = Some "Link Up").
Proof.
  intros w1.
  assert (TearDownLink 3 5 3 2 scenario_world = Ok (tt, w1)) as H
    by (apply world_after_Ok; vm_compute; reflexivity).
  assert (IsUp scenario_world 3 3 = Some true) as HA by (vm_compute; reflexivity).
  assert (IsUp scenario_world 5 2 = Some true) as HB by (vm_compute; reflexivity).
  split; [exact H | split; [exact HA | split; [exact HB |]]].
  exact (tear_down_then_recover_restores 3 5 3 2 _ _ H HA HB).
Defined.

Lemma handler_twice_as_once_witness :
  let w1 := world_after (RecoverLink 4 5 2 1) scenario_world in
  handler Recovery 4 5 2 1 scenario_world = Ok (tt, w1) ∧
  ∃ w2, handler Recovery 4 5 2 1 w1 = Ok (tt, w2) ∧
        (∀ n i, interface_at w2 n i = interface_at w1 n i) ∧
        (∀ anim n, node_colour w2 anim n = node_colour w1 anim n ∧
                   node_description w2 anim n = node_description w1 anim n).
Proof.
  intros w1.
  assert (handler Recovery 4 5 2 1 scenario_world = Ok (tt, w1)) as H
    by (apply world_after_Ok; vm_compute; reflexivity).
  split; [exact H |].
  exact (handler_twice_as_once Recovery 4 5 2 1 _ _ H).
Defined.

(** ** More of what [main] builds *)

(** A run that ends in [a] and in a state whose observation [view]
    evaluates to [v]. *)
Lemma run_view {A V} (r : result (A * World)) (a : A) (view : World -> V) (v : V) :
  match r with
  | Ok (a', w) => Some (a', view w)
  | Fatal _ => None
  end = Some (a, v) ->
  ∃ w, r = Ok (a, w) ∧ view w = v.
Proof.
  destruct r as [[a' w]|msg]; [|discriminate]. intros [= -> <-]. eauto.
Qed.

Ltac run_view :=
  eapply run_view; vm_compute; reflexivity.

(** X5.  For every command line the seven channels have data rate
    5000000 bit/s and delays of 2, 3, 4, 2, 5, 2 and 2 ms (net1 to net7),
    and the trace requests are the ASCII trace rip-simple-routing.tr and
    the promiscuous pcap trace with prefix rip-simple-routing. *)
Theorem main_channels_and_traces (argv : CommandLine) :
  ∃ w, main_setup argv World_init = Ok (tt, w) ∧
    channel_attributes w =
      (λ ms, (Some (DataRateValue 5000000), Some (TimeValue (MilliSeconds ms))))
        <$> [2; 3; 4; 2; 5; 2; 2] ∧
    w_traces w = [EnableAsciiAll "rip-simple-routing.tr";
                  EnablePcapAll "rip-simple-routing" true].
Proof.
  by_flags argv; run_check.
Qed.

(** X6.  For every command line the four routers run RIP alone, at
    priority 0, and the two hosts run static routing at priority 0 and
    global routing at priority -10. *)
Theorem main_routing_protocols (argv : CommandLine) :
  ∃ w, main_setup argv World_init = Ok (tt, w) ∧
    routing_protocols w =
      [("SrcNode", [(Static_routing, 0); (Global_routing, -10)]);
       ("DstNode", [(Static_routing, 0); (Global_routing, -10)]);
       ("RouterA", [(Rip_routing, 0)]);
       ("RouterB", [(Rip_routing, 0)]);
       ("RouterC", [(Rip_routing, 0)]);
       ("RouterD", [(Rip_routing, 0)])].
Proof.
  by_flags argv; run_check.
Qed.

(** X7.  For every command line, after the construction every node has
    the loopback as interface 0 and one interface per network it is on, in
    the order of address assignment, with these addresses; every interface
    is up and has IPv4 interface metric 1. *)
Theorem main_interface_table (argv : CommandLine) :
  ∃ w, main_setup argv World_init = Ok (tt, w) ∧
    interface_table w =
      (λ p : string * list string,
         (p.1, (λ a, ([Ipv4Address a], true, 1)) <$> ("127.0.0.1" :: p.2)))
      <$> [("SrcNode", ["10.0.0.1"]);
           ("DstNode", ["10.0.6.2"]);
           ("RouterA", ["10.0.0.2"; "10.0.1.1"; "10.0.2.1"]);
           ("RouterB", ["10.0.1.2"; "10.0.3.1"; "10.0.5.1"]);
           ("RouterC", ["10.0.2.2"; "10.0.3.2"; "10.0.4.1"]);
           ("RouterD", ["10.0.4.2"; "10.0.5.2"; "10.0.6.1"])].
Proof.
  by_flags argv; run_check.
Qed.

(** X8.  For every command line the eight log enablings (all components
    with time and node prefix, RipSimpleRouting at INFO, six components at
    ALL) are made exactly when the verbose flag is true. *)
Theorem main_logging_iff_verbose (argv : CommandLine) :
  ∃ w, main_setup argv World_init = Ok (tt, w) ∧
    w_log w =
      if cmd_Parse (arg_verbose argv) false
      then LogEnableAll (LOG_PREFIX true true)
           :: LogEnableComponent "RipSimpleRouting" LOG_LEVEL_INFO
           :: ((λ name, LogEnableComponent name LOG_LEVEL_ALL)
                 <$> ["Rip"; "Ipv4Interface"; "Icmpv4L4Protocol"; "Ipv4L3Protocol";
                      "ArpCache"; "Ping"])
      else [].
Proof.
  by_flags argv; run_check.
Qed.

(** X9.  For every command line the ping has size 1024, and its
    VerboseMode attribute is set (to VERBOSE) exactly when the showPings
    flag is false; with showPings true the attribute is left unset. *)
Theorem main_ping_verbose_iff_not_showPings (argv : CommandLine) :
  ∃ w, main_setup argv World_init = Ok (tt, w) ∧
    ping_attributes w =
      [(Some (UintegerValue 1024),
        if cmd_Parse (arg_showPings argv) false
        then None
        else Some (EnumValue Ping_VerboseMode_VERBOSE))].
Proof.
  by_flags argv; run_check.
Qed.

(** X10.  For every command line the only attribute default the driver
    sets is ns3::RipNg::SplitHorizon, and its value is NO_SPLIT_HORIZON
    exactly for the strategy "NoSplitHorizon" (also the default),
    SPLIT_HORIZON exactly for "SplitHorizon", and POISON_REVERSE exactly
    for every other string. *)
Theorem main_split_horizon_default (argv : CommandLine) :
  let s := cmd_Parse (arg_splitHorizonStrategy argv) "NoSplitHorizon" in
  ∃ mode,
    (mode = RipNg_NO_SPLIT_HORIZON ↔ s = "NoSplitHorizon") ∧
    (mode = RipNg_SPLIT_HORIZON ↔ s = "SplitHorizon") ∧
    (mode = RipNg_POISON_REVERSE ↔ s ≠ "NoSplitHorizon" ∧ s ≠ "SplitHorizon") ∧
    ∃ w, main_setup argv World_init = Ok (tt, w) ∧
         map_to_list (w_config w) = [("ns3::RipNg::SplitHorizon", EnumValue mode)].
Proof.
  destruct argv as [verbose printRoutingTables showPings SplitHorizon].
  unfold main_setup; cbv zeta.
  cbn [arg_verbose arg_printRoutingTables arg_showPings arg_splitHorizonStrategy].
  generalize (cmd_Parse SplitHorizon "NoSplitHorizon"). clear SplitHorizon. intros s.
  destruct (String.eqb s "NoSplitHorizon") eqn:Hno;
    [| destruct (String.eqb s "SplitHorizon") eqn:Hsh].
  - apply String.eqb_eq in Hno. exists RipNg_NO_SPLIT_HORIZON.
    repeat split; try done; try (subst s; discriminate).
    { intros [? _]. done. }
    destruct (cmd_Parse verbose false), (cmd_Parse printRoutingTables false),
      (cmd_Parse showPings false); run_check.
  - apply String.eqb_eq in Hsh. exists RipNg_SPLIT_HORIZON.
    repeat split; try done; try (subst s; discriminate).
    { intros [_ ?]. done. }
    destruct (cmd_Parse verbose false), (cmd_Parse printRoutingTables false),
      (cmd_Parse showPings false); run_check.
  - apply String.eqb_neq in Hno, Hsh. exists RipNg_POISON_REVERSE.
    repeat split; try done.
    destruct (cmd_Parse verbose false), (cmd_Parse printRoutingTables false),
      (cmd_Parse showPings false); run_check.
Qed.

(** X11.  For every command line with strategy string s the animation
    file is rip-simple-routing-s.xml, each of the four routers is described
    as "Router X", a newline and s, and the six nodes have their constant
    positions. *)
Theorem main_animation_labels (argv : CommandLine) :
  let s := cmd_Parse (arg_splitHorizonStrategy argv) "NoSplitHorizon" in
  ∃ w, main_setup argv World_init = Ok (tt, w) ∧
    (animation_file w,
     description_of w <$> ["RouterA"; "RouterB"; "RouterC"; "RouterD"],
     positions w) =
      (Some ("rip-simple-routing-" +:+ s +:+ ".xml"),
       [Some ("Router A" +:+ String "010" s);
        Some ("Router B" +:+ String "010" s);
        Some ("Router C" +:+ String "010" s);
        Some ("Router D" +:+ String "010" s)],
       [("SrcNode", Some (0, 0)); ("DstNode", Some (8, 0));
        ("RouterA", Some (2, 1)); ("RouterB", Some (4, 0));
        ("RouterC", Some (2, -1)); ("RouterD", Some (6, 0))]).
Proof.
  by_flags argv; run_view.
Qed.

(** X12.  The command line does not change the network: for every command
    line the names, channels, devices, the devices, IPv4 stack (interfaces,
    addresses, routing protocols with RIP exclusions and metrics, static
    routes) and position of every node, the trace requests and the link
    events are those of the run without flags. *)
Theorem main_flags_leave_scenario_core (argv : CommandLine) :
  ∃ w, main_setup argv World_init = Ok (tt, w) ∧
    scenario_core w = scenario_core scenario_world.
Proof.
  by_flags argv; run_check.
Qed.

(** X14.  [g_anim] is null at the start; for every command line it points
    to a live animation object once the scenario is built, and when [main]
    returns 0 it is null again, the event queue is empty and the stop flag
    is raised. *)
Theorem main_g_anim_lifetime (argv : CommandLine) :
  g_anim World_init = None ∧
  (∃ w, main_setup argv World_init = Ok (tt, w) ∧ is_Some (animation_file w)) ∧
  (∃ w, main argv World_init = Ok (0, w) ∧
     g_anim w = None ∧ sim_events (w_sim w) = [] ∧ sim_stop (w_sim w) = true).
Proof.
  split; [reflexivity|].
  by_flags argv; split; run_check.
Qed.
